(** * DockyMe: the USB device monitor of [docky.py]

    A shallow embedding of [USBMonitor] (device formatting, the monitor
    thread, the display tick and the two buttons) and the properties of
    its specification.

    - Python [str] is [string]; a WMI device object is a finite map from
      attribute names to attribute values ([hasattr] is a lookup); the
      dictionary built by [get_device_details] is a [gmap string string].
    - Exceptions are explicit: fallible expressions live in [result].
    - The globals [logger], [text_box], [event_queue] and [running] are the
      fields of one shared record; the two threads are step functions on it
      and a schedule interleaves their atomic steps. *)

From Stdlib Require Import String Ascii List Lia Bool Arith.
From stdpp Require Import gmap strings.

(** ** Exceptions *)

Inductive exn : Type :=
| x_wmi_timed_out (msg : string)   (* wmi.x_wmi_timed_out *)
| Exception (msg : string).        (* any other subclass of Exception *)

(** [str(e)] *)
Definition str (e : exn) : string :=
  match e with
  | x_wmi_timed_out msg => msg
  | Exception msg => msg
  end.

Inductive result (A : Type) : Type :=
| Ok (a : A)
| Raise (e : exn).
Arguments Ok {A} a.
Arguments Raise {A} e.

Definition bind {A B} (r : result A) (k : A -> result B) : result B :=
  match r with
  | Ok a => k a
  | Raise e => Raise e
  end.

Notation "'let*' x := r 'in' k" := (bind r (fun x => k))
  (at level 10, x name, r at level 100, k at level 200).

Definition ValueError (msg : string) : exn := Exception msg.
Definition IndexError (msg : string) : exn := Exception msg.
Definition KeyError (key : string) : exn := Exception ("'" +:+ key +:+ "'").
Definition TypeError (msg : string) : exn := Exception msg.

(** ** Python string and list primitives used by the program *)

Module PyStr.

(** [s[n:]] *)
Fixpoint drop (n : nat) (s : string) : string :=
  match n, s with
  | S k, String _ s' => drop k s'
  | _, _ => s
  end.

(** [sub in s] *)
Fixpoint contains (sub s : string) : bool :=
  if String.prefix sub s then true
  else match s with
       | EmptyString => false
       | String _ s' => contains sub s'
       end.

(** The scan of [str.split(sep)] for a non-empty [sep]: left to right,
    cutting at every occurrence of [sep] that does not overlap the
    previous one.  [skip] counts the characters of a separator just
    matched that are still to be passed over; [cur] is the piece being
    collected. *)
Fixpoint split_go (sep : string) (skip : nat) (cur : string) (s : string)
  : list string :=
  match skip with
  | S k =>
      match s with
      | EmptyString => [cur]
      | String _ s' => split_go sep k cur s'
      end
  | O =>
      match s with
      | EmptyString => [cur]
      | String c s' =>
          if String.prefix sep s
          then cur :: split_go sep (String.length sep - 1) EmptyString s'
          else split_go sep 0 (cur +:+ String c EmptyString) s'
      end
  end.

(** [s.split(sep)]; an empty separator is a [ValueError]. *)
Definition split (s sep : string) : result (list string) :=
  match sep with
  | EmptyString => Raise (ValueError "empty separator")
  | _ => Ok (split_go sep 0 EmptyString s)
  end.

(** [l[i]] *)
Definition index {A} (l : list A) (i : nat) : result A :=
  match nth_error l i with
  | Some x => Ok x
  | None => Raise (IndexError "list index out of range")
  end.

(** [s * n] *)
Fixpoint mul (s : string) (n : nat) : string :=
  match n with
  | O => EmptyString
  | S k => s +:+ mul s k
  end.

(** The part of [s] before the first occurrence of [sep]; all of [s] when
    there is none. *)
Fixpoint before (sep s : string) : string :=
  if String.prefix sep s then EmptyString
  else match s with
       | EmptyString => EmptyString
       | String c s' => String c (before sep s')
       end.

(** The part of [s] after the first occurrence of [sep]. *)
Fixpoint after (sep s : string) : option string :=
  if String.prefix sep s then Some (drop (String.length sep) s)
  else match s with
       | EmptyString => None
       | String _ s' => after sep s'
       end.

End PyStr.

Definition nl : string := String (ascii_of_nat 10) EmptyString.
Definition backslash : string := String (ascii_of_nat 92) EmptyString.


(** ** Device objects and [get_device_details] *)

(** The value of a WMI string property: a string, or [None] when the
    property is null. *)
Inductive value : Type :=
| Str (s : string)
| PyNone.

(** [f"{v}"] *)
Definition format (v : value) : string :=
  match v with
  | Str s => s
  | PyNone => "None"
  end.

(** A WMI device object: its attributes by name.  [hasattr(device, a)] is
    [device !! a ≠ None]; a null property is present, with value
    [PyNone]. *)
Abbreviation device := (gmap string value).

Inductive level : Type := INFO | ERROR | CRITICAL.

(** What a thread does to the shared objects, one atomic call each. *)
Inductive op : Type :=
| Put (message : string)             (* event_queue.put(message) *)
| Log (lvl : level) (message : string). (* logger.info / logger.error *)

(** Straight-line code that may raise: the calls made so far, and the
    value or the exception. *)
Definition prog (A : Type) : Type := (list op * result A)%type.

Definition ret {A} (a : A) : prog A := ([], Ok a).
Definition lift {A} (r : result A) : prog A := ([], r).
Definition call (o : op) : prog unit := ([o], Ok tt).

Definition pbind {A B} (p : prog A) (k : A -> prog B) : prog B :=
  match p with
  | (ops, Ok a) => let '(ops', r) := k a in (ops ++ ops', r)
  | (ops, Raise e) => (ops, Raise e)
  end.

Notation "'run*' x := p 'in' k" := (pbind p (fun x => k))
  (at level 10, x name, p at level 100, k at level 200).

Definition event_queue_put (message : string) : prog unit := call (Put message).
Definition logger_info (message : string) : prog unit := call (Log INFO message).
Definition logger_error (message : string) : prog unit := call (Log ERROR message).

(** [d[key]] *)
Definition getitem (d : gmap string value) (key : string) : result value :=
  match d !! key with
  | Some v => Ok v
  | None => Raise (KeyError key)
  end.

(** [device_id.split("VID_")[1].split("&")[0]] *)
Definition vendor_id_expr (device_id : string) : result string :=
  let* parts := PyStr.split device_id "VID_" in
  let* tail := PyStr.index parts 1 in
  let* fields := PyStr.split tail "&" in
  PyStr.index fields 0.

(** The three statements of the [try] block, on the dictionary built so
    far.  Only the second can raise, and it raises before it assigns. *)
Definition set_name (device : device) (device_details : gmap string value)
  : gmap string value :=
  match device !! "Caption" with
  | Some caption => <["Name" := caption]> device_details
  | None =>
      match device !! "Description" with
      | Some description => <["Name" := description]> device_details
      | None => device_details
      end
  end.

Definition set_vendor_id (device : device) (device_details : gmap string value)
  : result (gmap string value) :=
  match device !! "DeviceID" with
  | Some device_id =>
      match device_id with
      | Str s =>
          if PyStr.contains "VID_" s
          then let* v := vendor_id_expr s in
               Ok (<["Vendor ID" := Str v]> device_details)
          else Ok device_details
      | PyNone =>
          (* ["VID_" in None] *)
          Raise (TypeError "argument of type 'NoneType' is not iterable")
      end
  | None => Ok device_details
  end.

Definition set_status (device : device) (device_details : gmap string value)
  : gmap string value :=
  match device !! "Status" with
  | Some status => <["Status" := status]> device_details
  | None => device_details
  end.

Definition get_device_details (device : device) : prog (gmap string value) :=
  let device_details : gmap string value :=
    <["Name" := Str "Unknown"]>
      (<["Vendor ID" := Str "Unknown"]> (<["Status" := Str "Unknown"]> ∅)) in
  let device_details := set_name device device_details in
  match set_vendor_id device device_details with
  | Ok device_details => ret (set_status device device_details)
  | Raise e =>
      run* _ := logger_error ("Error getting device details: " +:+ str e) in
      ret device_details
  end.

(** ** The three messages of [monitor_devices] *)

Definition rule : string := PyStr.mul "-" 50.

Definition found_message (details : gmap string value) : result string :=
  let* name := getitem details "Name" in
  let* vendor := getitem details "Vendor ID" in
  let* status := getitem details "Status" in
  Ok ("Device Found:" +:+ nl +:+
      "Name: " +:+ format name +:+ nl +:+
      "Vendor ID: " +:+ format vendor +:+ nl +:+
      "Status: " +:+ format status +:+ nl +:+
      rule).

Definition connected_message (details : gmap string value) : result string :=
  let* name := getitem details "Name" in
  let* vendor := getitem details "Vendor ID" in
  let* status := getitem details "Status" in
  Ok ("New Device Connected:" +:+ nl +:+
      "Name: " +:+ format name +:+ nl +:+
      "Vendor ID: " +:+ format vendor +:+ nl +:+
      "Status: " +:+ format status +:+ nl +:+
      rule).

Definition disconnected_message (details : gmap string value) : result string :=
  let* name := getitem details "Name" in
  let* vendor := getitem details "Vendor ID" in
  Ok ("Device Disconnected:" +:+ nl +:+
      "Name: " +:+ format name +:+ nl +:+
      "Vendor ID: " +:+ format vendor +:+ nl +:+
      rule).

(** ** Shared objects *)

(** The module globals.  [logger] holds the records handed to the handler
    of [usb_device_log.txt], oldest first (rotation renames files and is
    not modelled); [event_queue] is the [Queue], head first; [root] is
    set once by [setup_gui] and is always truthy afterwards, so it is not
    a field. *)
Record shared : Type := {
  logger : list (level * string);
  text_box : string;
  event_queue : list string;
  running : bool
}.

Definition set_logger (f : list (level * string) -> list (level * string))
  (g : shared) : shared :=
  {| logger := f (logger g); text_box := text_box g;
     event_queue := event_queue g; running := running g |}.

Definition set_text_box (f : string -> string) (g : shared) : shared :=
  {| logger := logger g; text_box := f (text_box g);
     event_queue := event_queue g; running := running g |}.

Definition set_event_queue (f : list string -> list string) (g : shared)
  : shared :=
  {| logger := logger g; text_box := text_box g;
     event_queue := f (event_queue g); running := running g |}.

Definition set_running (b : bool) (g : shared) : shared :=
  {| logger := logger g; text_box := text_box g;
     event_queue := event_queue g; running := b |}.

(** What an observer of a step sees. *)
Inductive event : Type :=
| Ev_put (message : string)     (* a message entered the queue *)
| Ev_insert (message : string)  (* a message left the queue for the text box *)
| Ev_wait (ms : nat)            (* a watcher call came back after [ms] *)
| Ev_iteration                  (* the [while] test passed *)
| Ev_clear.                     (* the text box was emptied *)

Definition perform (o : op) (g : shared) : shared * list event :=
  match o with
  | Put message =>
      (set_event_queue (fun q => q ++ [message]) g, [Ev_put message])
  | Log lvl message =>
      (set_logger (fun l => l ++ [(lvl, message)]) g, [])
  end.

(** ** The monitor thread: [monitor_devices] *)

(** Where the thread stands between two atomic steps. *)
Inductive wctl : Type :=
| At_init           (* before [c = wmi.WMI()] *)
| At_loop_head      (* at [while running] *)
| At_creation_wait  (* at [device_creation(timeout_ms=100)] *)
| At_deletion_wait  (* at [device_deletion(timeout_ms=100)] *)
| At_finally        (* at [pythoncom.CoUninitialize()] *)
| Done.

(** [pending]: calls on the shared objects that the code reached at [ctl]
    has still to make before it gets there. *)
Record worker : Type := { pending : list op; ctl : wctl }.

(** What the operating system answers to the thread's next call: to the
    connection, the two [watch_for] and the enumeration taken together,
    or to a watcher call, with the time the watcher took. *)
Record os_reply : Type := {
  hub_query : result (list device);
  watcher_event : result (option device);
  waited_ms : nat
}.

Definition timeout_ms : nat := 100.

Fixpoint for_each {A} (l : list A) (body : A -> prog unit) : prog unit :=
  match l with
  | [] => ret tt
  | x :: l' => run* _ := body x in for_each l' body
  end.

(** Lines 131-141: the header and one message per current device. *)
Definition enumerate (current_devices : list device) : prog unit :=
  run* _ := event_queue_put "=== Current USB Devices ===" in
  for_each current_devices (fun device =>
    run* details := get_device_details device in
    run* message := lift (found_message details) in
    event_queue_put message).

(** Lines 123-141 under the outer [try]/[except Exception]: [reply] is
    what the connection, the watchers and the enumeration come to. *)
Definition startup (reply : result (list device)) : worker :=
  match (run* current_devices := lift reply in enumerate current_devices) with
  | (ops, Ok _) => {| pending := ops; ctl := At_loop_head |}
  | (ops, Raise e) =>
      {| pending := ops ++
           [Log ERROR ("Error in monitor_devices: " +:+ str e);
            Put ("Error initializing device monitoring: " +:+ str e)];
         ctl := At_finally |}
  end.

(** Lines 147-158. *)
Definition check_new (reply : result (option device)) : prog unit :=
  run* new_device := lift reply in
  match new_device with
  | Some new_device =>
      run* details := get_device_details new_device in
      run* message := lift (connected_message details) in
      run* _ := event_queue_put message in
      run* name := lift (getitem details "Name") in
      logger_info ("New device connected: " +:+ format name)
  | None => ret tt
  end.

(** Lines 161-171. *)
Definition check_removed (reply : result (option device)) : prog unit :=
  run* removed_device := lift reply in
  match removed_device with
  | Some removed_device =>
      run* details := get_device_details removed_device in
      run* message := lift (disconnected_message details) in
      run* _ := event_queue_put message in
      run* name := lift (getitem details "Name") in
      logger_info ("Device disconnected: " +:+ format name)
  | None => ret tt
  end.

(** The inner [try] with its two handlers: [body] ran up to [next] or
    raised on the way. *)
Definition try_poll (body : prog unit) (next : wctl) : worker :=
  match body with
  | (ops, Ok _) => {| pending := ops; ctl := next |}
  | (ops, Raise (x_wmi_timed_out _)) =>
      {| pending := ops; ctl := At_loop_head |}
  | (ops, Raise e) =>
      {| pending := ops ++
           [Log ERROR ("Error in device monitoring: " +:+ str e);
            Put ("Error monitoring devices: " +:+ str e)];
         ctl := At_loop_head |}
  end.

(** One atomic step of the thread. *)
Definition monitor_devices (os : os_reply) (w : worker) (g : shared)
  : worker * shared * list event :=
  match pending w with
  | o :: rest =>
      let '(g', evs) := perform o g in
      ({| pending := rest; ctl := ctl w |}, g', evs)
  | [] =>
      match ctl w with
      | At_init => (startup (hub_query os), g, [])
      | At_loop_head =>
          if running g
          then ({| pending := []; ctl := At_creation_wait |}, g, [Ev_iteration])
          else ({| pending := []; ctl := At_finally |}, g, [])
      | At_creation_wait =>
          (try_poll (check_new (watcher_event os)) At_deletion_wait, g,
           [Ev_wait (waited_ms os)])
      | At_deletion_wait =>
          (try_poll (check_removed (watcher_event os)) At_loop_head, g,
           [Ev_wait (waited_ms os)])
      | At_finally => ({| pending := []; ctl := Done |}, g, [])
      | Done => (w, g, [])
      end
  end.

(** ** The GUI thread: the timer callback and the two buttons *)

Inductive gctl : Type :=
| Idle              (* in [root.mainloop()] *)
| At_while          (* at [while not event_queue.empty()] *)
| At_get            (* at [event_queue.get_nowait()] *)
| At_reschedule     (* at [if root and running] *)
| At_cleanup_log    (* in [cleanup], at [logger.info] *)
| At_destroy        (* in [cleanup], at [root.destroy()] *)
| Closed.

(** [timer]: a [root.after(100, self.update_gui_from_queue)] is due. *)
Record gui_thread : Type := { gctl_of : gctl; timer : bool }.

Inductive gui_input : Type :=
| Timer_fires
| Click_clear_log
| Click_exit
| Close_window.     (* WM_DELETE_WINDOW *)

(** [lambda: text_box.delete(1.0, tk.END)] *)
Definition clear_log (g : shared) : shared :=
  set_text_box (fun _ => EmptyString) g.

(** One atomic step of [update_gui_from_queue]. *)
Definition update_gui_from_queue (t : gui_thread) (g : shared)
  : gui_thread * shared * list event :=
  match gctl_of t with
  | At_while =>
      match event_queue g with
      | [] => ({| gctl_of := At_reschedule; timer := timer t |}, g, [])
      | _ :: _ => ({| gctl_of := At_get; timer := timer t |}, g, [])
      end
  | At_get =>
      match event_queue g with
      | message :: q =>
          ({| gctl_of := At_while; timer := timer t |},
           set_text_box (fun tb => tb +:+ message +:+ nl)
             (set_event_queue (fun _ => q) g),
           [Ev_insert message])
      | [] =>
          (* queue.Empty, whose [str] is empty *)
          ({| gctl_of := At_reschedule; timer := timer t |},
           set_logger (fun l => l ++ [(ERROR, "Error updating GUI: ")]) g, [])
      end
  | At_reschedule =>
      ({| gctl_of := Idle; timer := running g |}, g, [])
  | _ => (t, g, [])
  end.

(** One atomic step of [cleanup]. *)
Definition cleanup (t : gui_thread) (g : shared)
  : gui_thread * shared * list event :=
  match gctl_of t with
  | Idle =>
      ({| gctl_of := At_cleanup_log; timer := timer t |}, set_running false g, [])
  | At_cleanup_log =>
      ({| gctl_of := At_destroy; timer := timer t |},
       set_logger (fun l => l ++ [(INFO, "Shutting down USB Monitor")]) g, [])
  | At_destroy => ({| gctl_of := Closed; timer := false |}, g, [])
  | _ => (t, g, [])
  end.

(** One atomic step of the GUI thread; [input] is what the main loop
    dispatches when it is idle. *)
Definition gui_step (input : gui_input) (t : gui_thread) (g : shared)
  : gui_thread * shared * list event :=
  match gctl_of t with
  | Idle =>
      match input with
      | Timer_fires =>
          if timer t then ({| gctl_of := At_while; timer := false |}, g, [])
          else (t, g, [])
      | Click_clear_log => (t, clear_log g, [Ev_clear])
      | Click_exit | Close_window => cleanup t g
      end
  | At_while | At_get | At_reschedule => update_gui_from_queue t g
  | At_cleanup_log | At_destroy => cleanup t g
  | Closed => (t, g, [])
  end.

(** ** The two threads together *)

Record system : Type := { globals : shared; monitor : worker; gui : gui_thread }.

Inductive action : Type :=
| Monitor (os : os_reply)
| Gui (input : gui_input).

Definition step (a : action) (s : system) : system * list event :=
  match a with
  | Monitor os =>
      let '(w, g, evs) := monitor_devices os (monitor s) (globals s) in
      ({| globals := g; monitor := w; gui := gui s |}, evs)
  | Gui input =>
      let '(t, g, evs) := gui_step input (gui s) (globals s) in
      ({| globals := g; monitor := monitor s; gui := t |}, evs)
  end.

Fixpoint run (schedule : list action) (s : system) : system * list event :=
  match schedule with
  | [] => (s, [])
  | a :: rest =>
      let '(s1, evs1) := step a s in
      let '(s2, evs2) := run rest s1 in
      (s2, evs1 ++ evs2)
  end.

(** After [USBMonitor()] and [monitor_thread.start()]: the first call of
    [update_gui_from_queue] found the queue empty and armed the timer. *)
Definition initial : system :=
  {| globals := {| logger := []; text_box := EmptyString;
                   event_queue := []; running := true |};
     monitor := {| pending := []; ctl := At_init |};
     gui := {| gctl_of := Idle; timer := true |} |}.

(** Projections of a trace. *)
Definition puts (evs : list event) : list string :=
  flat_map (fun e => match e with Ev_put m => [m] | _ => [] end) evs.
Definition inserts (evs : list event) : list string :=
  flat_map (fun e => match e with Ev_insert m => [m] | _ => [] end) evs.
Definition waits (evs : list event) : list nat :=
  flat_map (fun e => match e with Ev_wait ms => [ms] | _ => [] end) evs.
Definition iterations (evs : list event) : nat :=
  length (List.filter (fun e => match e with Ev_iteration => true | _ => false end) evs).

(** What the text box shows after the events [evs], from [tb]. *)
Fixpoint display (tb : string) (evs : list event) : string :=
  match evs with
  | [] => tb
  | Ev_insert message :: evs' => display (tb +:+ message +:+ nl) evs'
  | Ev_clear :: evs' => display EmptyString evs'
  | _ :: evs' => display tb evs'
  end.

(** Steps of the monitor thread in a schedule. *)
Definition monitor_steps (schedule : list action) : nat :=
  length (List.filter
            (fun a => match a with Monitor _ => true | Gui _ => false end)
            schedule).

(** The watchers honour [timeout_ms]: no call takes longer. *)
Definition well_timed (schedule : list action) : bool :=
  forallb (fun a => match a with
                    | Monitor os => waited_ms os <=? timeout_ms
                    | Gui _ => true
                    end) schedule.

(** Watcher calls the thread can still make once [running] is false. *)
Definition waits_left (c : wctl) : nat :=
  match c with
  | At_creation_wait => 2
  | At_deletion_wait => 1
  | _ => 0
  end.

(** Steps the thread needs at most to reach [Done] from inside the loop
    once [running] is false. *)
Definition exit_bound (w : worker) : nat :=
  length (pending w) +
  match ctl w with
  | At_creation_wait => 10
  | At_deletion_wait => 6
  | At_loop_head => 2
  | At_finally => 1
  | At_init | Done => 0
  end.

(** ** Vocabulary of the statements *)

(** The lines of a message: [message.split(nl)]. *)
Definition lines (message : string) : list string :=
  PyStr.split_go nl 0 EmptyString message.

(** The vendor id written in an identifier, read off declaratively: the
    text after the first ["VID_"], cut at the next ["VID_"] and then at
    the first ["&"]. *)
Definition vendor_of_id (device_id : string) : string :=
  match PyStr.after "VID_" device_id with
  | Some post => PyStr.before "&" (PyStr.before "VID_" post)
  | None => "Unknown"
  end.

(** The identifier of the device is present and null: the one case in
    which the [try] block raises. *)
Definition null_id (device : device) : bool :=
  match device !! "DeviceID" with
  | Some PyNone => true
  | _ => false
  end.

(** What [get_device_details] logs for the device. *)
Definition details_log (device : device) : list op :=
  if null_id device
  then [Log ERROR ("Error getting device details: " +:+
                   "argument of type 'NoneType' is not iterable")]
  else [].

(** The three fields as functions of the device: the values in the
    dictionary, and their text in a message. *)
Definition name_value (device : device) : value :=
  match device !! "Caption" with
  | Some caption => caption
  | None => default (Str "Unknown") (device !! "Description")
  end.

Definition status_value (device : device) : value :=
  if null_id device then Str "Unknown"
  else default (Str "Unknown") (device !! "Status").

Definition name_of (device : device) : string := format (name_value device).

Definition vendor_of (device : device) : string :=
  match device !! "DeviceID" with
  | Some (Str device_id) => vendor_of_id device_id
  | _ => "Unknown"
  end.

Definition status_of (device : device) : string :=
  format (status_value device).

(** The claim's reading of the extraction, in its words: the substring
    between the first ["VID_"] and the next ["&"] (the rest of the string
    when no ["&"] follows). *)
Definition between_VID_and_amp (device_id : string) : option string :=
  match PyStr.after "VID_" device_id with
  | Some post => Some (PyStr.before "&" post)
  | None => None
  end.

(** ** Sample inputs *)

Definition id_1234 (sep rest : string) : string :=
  "USB" +:+ sep +:+ "VID_1234&PID_5678" +:+ sep +:+ rest.

Definition hub_1234 : device :=
  <["DeviceID" := Str (id_1234 backslash "5&2ab1c0&0&1")]> ∅.

Definition hub_described : device :=
  {[ "Description" := Str "USB Root Hub" ]}.

Definition hub_both : device :=
  <["Caption" := Str "Generic USB Hub"]>
    ({[ "Description" := Str "USB Root Hub" ]}).

Definition hub_nameless : device := {[ "Status" := Str "OK" ]}.

(** A hub whose identifier is null. *)
Definition hub_null_id : device :=
  <["DeviceID" := PyNone]> ({[ "Status" := Str "OK" ]}).

Definition id_ABCD (sep : string) : string :=
  "USB" +:+ sep +:+ "VID_ABCD&PID_0001".

Definition test_device : device :=
  <["Caption" := Str "Test Device"]>
    ({[ "DeviceID" := Str (id_ABCD backslash) ]}).

Definition reply_of (devices : result (list device))
  (event : result (option device)) : os_reply :=
  {| hub_query := devices; watcher_event := event; waited_ms := 100 |}.

(** The WMI service cannot be reached. *)
Definition down : os_reply :=
  reply_of (Raise (Exception "RPC server is unavailable")) (Ok None).

(** No current device; the watchers return the test device. *)
Definition plugged : os_reply := reply_of (Ok []) (Ok (Some test_device)).

Definition eight_steps : list action :=
  [Monitor plugged; Monitor plugged; Monitor plugged; Monitor plugged;
   Monitor plugged; Monitor plugged; Monitor plugged; Monitor plugged].

Definition ten_steps : list action :=
  Monitor plugged :: Monitor plugged :: eight_steps.

(** The system with the monitor thread at [c], nothing pending. *)
Definition at_ctl (g : shared) (t : gui_thread) (c : wctl) : system :=
  {| globals := g; monitor := {| pending := []; ctl := c |}; gui := t |}.

(** The thread about to call the creation watcher when [cleanup] has just
    cleared the flag. *)
Definition stopped : system :=
  at_ctl (set_running false (globals initial))
         {| gctl_of := At_cleanup_log; timer := true |} At_creation_wait.

(** ** Vocabulary of the further properties *)

(** All the calls of [ops] made, in order. *)
Definition perform_all (ops : list op) (g : shared) : shared :=
  fold_left (fun g o => fst (perform o g)) ops g.

(** The messages [ops] put on the queue and the records they log. *)
Definition queued (ops : list op) : list string :=
  flat_map (fun o => match o with Put m => [m] | Log _ _ => [] end) ops.
Definition logged (ops : list op) : list (level * string) :=
  flat_map (fun o => match o with Put _ => [] | Log l m => [(l, m)] end) ops.

(** Every watcher call of the schedule times out. *)
Definition all_timeouts (schedule : list action) : bool :=
  forallb (fun a => match a with
                    | Monitor os =>
                        match watcher_event os with
                        | Raise (x_wmi_timed_out _) => true
                        | _ => false
                        end
                    | Gui _ => true
                    end) schedule.

(** [get_nowait] is not about to be called on an empty queue. *)
Definition get_ready (s : system) : bool :=
  match gctl_of (gui s), event_queue (globals s) with
  | At_get, [] => false
  | _, _ => true
  end.

(** What [text_box] holds after the messages [ms] were inserted at its
    end. *)
Definition inserted (tb : string) (ms : list string) : string :=
  fold_left (fun tb message => tb +:+ message +:+ nl) ms tb.

(** The text of the "Device Found" message of a device. *)
Definition found_text (device : device) : string :=
  "Device Found:" +:+ nl +:+
  "Name: " +:+ name_of device +:+ nl +:+
  "Vendor ID: " +:+ vendor_of device +:+ nl +:+
  "Status: " +:+ status_of device +:+ nl +:+ rule.

(** The calls of the enumeration on the shared objects: the header, and
    for each device what [get_device_details] logs and its message. *)
Definition enumeration_ops (devices : list device) : list op :=
  Put "=== Current USB Devices ===" ::
  flat_map (fun device => details_log device ++ [Put (found_text device)])
           devices.

(** A watcher that keeps timing out. *)
Definition quiet : os_reply :=
  reply_of (Ok []) (Raise (x_wmi_timed_out "timed out")).

(** * Properties *)

(** ** Strings *)

Section Strings.

Lemma append_nil_l (s : string) : EmptyString +:+ s = s.
Proof. reflexivity. Qed.

Lemma append_cons (c : ascii) (s t : string) :
  String c s +:+ t = String c (s +:+ t).
Proof. reflexivity. Qed.

Lemma append_nil_r (s : string) : s +:+ EmptyString = s.
Proof.
  induction s as [|c s IH]; [reflexivity | now rewrite append_cons, IH].
Qed.

Lemma append_assoc (a b c : string) : (a +:+ b) +:+ c = a +:+ (b +:+ c).
Proof.
  induction a as [|x a IH]; [reflexivity | now rewrite !append_cons, IH].
Qed.

Lemma append_snoc (cur : string) (c : ascii) (s : string) :
  (cur +:+ String c EmptyString) +:+ s = cur +:+ String c s.
Proof. now rewrite append_assoc. Qed.

Lemma prefix_append (sep s : string) : String.prefix sep (sep +:+ s) = true.
Proof.
  induction sep as [|a sep IH].
  - now destruct s.
  - rewrite append_cons. simpl.
    destruct (ascii_dec a a); [exact IH | congruence].
Qed.

Lemma prefix_char (a c : ascii) (s : string) :
  String.prefix (String a EmptyString) (String c s) = true -> a = c.
Proof.
  cbn [String.prefix]. destruct (ascii_dec a c); [auto | discriminate].
Qed.

Lemma prefix_nil (s : string) : String.prefix EmptyString s = true.
Proof. now destruct s. Qed.

Lemma before_at_sep (a : ascii) (s : string) :
  PyStr.before (String a EmptyString) (String a s) = EmptyString.
Proof.
  cbn [PyStr.before String.prefix].
  destruct (ascii_dec a a); [now rewrite prefix_nil | congruence].
Qed.

Lemma prefix_split (sep s : string) :
  String.prefix sep s = true -> s = sep +:+ PyStr.drop (String.length sep) s.
Proof.
  revert s. induction sep as [|a sep IH]; intros s H.
  - now destruct s.
  - destruct s as [|b s]; simpl in H; [discriminate|].
    destruct (ascii_dec a b) as [->|]; [|discriminate].
    rewrite append_cons. simpl. f_equal. now apply IH.
Qed.

Lemma split_go_skip (sep : string) (k : nat) (cur s : string) :
  PyStr.split_go sep k cur s = PyStr.split_go sep 0 cur (PyStr.drop k s).
Proof.
  revert s. induction k as [|k IH]; intros s.
  - now destruct s.
  - destruct s as [|c s]; simpl; [reflexivity | apply IH].
Qed.

(** The first piece of a split is what precedes the first separator, and
    the other pieces are the split of what follows it. *)
Lemma split_go_first (a : ascii) (sep' cur s : string) :
  let sep := String a sep' in
  PyStr.split_go sep 0 cur s =
    (cur +:+ PyStr.before sep s) ::
    match PyStr.after sep s with
    | Some post => PyStr.split_go sep 0 EmptyString post
    | None => []
    end.
Proof.
  intros sep. revert cur. induction s as [|c s IH]; intros cur.
  - simpl. now rewrite append_nil_r.
  - cbn [PyStr.split_go PyStr.before PyStr.after].
    destruct (String.prefix sep (String c s)) eqn:Hp.
    + rewrite append_nil_r. f_equal.
      subst sep. simpl. rewrite Nat.sub_0_r. apply split_go_skip.
    + rewrite IH. now rewrite append_snoc.
Qed.

Lemma split_first (a : ascii) (sep' s : string) :
  let sep := String a sep' in
  PyStr.split s sep =
    Ok (PyStr.before sep s ::
        match PyStr.after sep s with
        | Some post => PyStr.split_go sep 0 EmptyString post
        | None => []
        end).
Proof. intros sep. unfold PyStr.split, sep. f_equal. apply split_go_first. Qed.

Lemma contains_after (sep s : string) :
  PyStr.contains sep s = true <-> is_Some (PyStr.after sep s).
Proof.
  induction s as [|c s IH]; cbn [PyStr.contains PyStr.after].
  - destruct (String.prefix sep EmptyString); split; intros H;
      eauto; try discriminate; destruct H; discriminate.
  - destruct (String.prefix sep (String c s)); [|exact IH].
    split; eauto.
Qed.

Lemma after_decompose (sep s post : string) :
  PyStr.after sep s = Some post ->
  s = PyStr.before sep s +:+ sep +:+ post.
Proof.
  induction s as [|c s IH]; cbn [PyStr.before PyStr.after].
  - destruct (String.prefix sep EmptyString) eqn:Hp; intros H;
      [|discriminate].
    injection H as <-. now apply prefix_split.
  - destruct (String.prefix sep (String c s)) eqn:Hp; intros H.
    + injection H as <-. now apply prefix_split.
    + rewrite append_cons. f_equal. now apply IH.
Qed.

Lemma before_whole (sep s : string) :
  PyStr.after sep s = None -> PyStr.before sep s = s.
Proof.
  induction s as [|c s IH]; cbn [PyStr.before PyStr.after].
  - now destruct (String.prefix sep EmptyString).
  - destruct (String.prefix sep (String c s)); intros H; [discriminate|].
    f_equal. now apply IH.
Qed.

Lemma prefix_char_tail (a c : ascii) (s s' : string) :
  String.prefix (String a EmptyString) (String c s) =
  String.prefix (String a EmptyString) (String c s').
Proof.
  cbn [String.prefix]. destruct (ascii_dec a c); [|reflexivity].
  now rewrite !prefix_nil.
Qed.

Lemma contains_char_cons (a c : ascii) (s : string) :
  PyStr.contains (String a EmptyString) (String c s) = false ->
  a <> c /\ PyStr.contains (String a EmptyString) s = false.
Proof.
  cbn [PyStr.contains String.prefix].
  destruct (ascii_dec a c); [now rewrite prefix_nil|]. auto.
Qed.

(** Cutting at a character that [sep] does not have keeps a leading
    [sep]. *)
Lemma prefix_before (a : ascii) (sep s : string) :
  PyStr.contains (String a EmptyString) sep = false ->
  String.prefix sep s = true ->
  String.prefix sep (PyStr.before (String a EmptyString) s) = true.
Proof.
  revert s. induction sep as [|x sep IH]; intros s Ha Hp.
  - apply prefix_nil.
  - apply contains_char_cons in Ha as [Hax Ha].
    destruct s as [|c s]; [discriminate|].
    cbn [String.prefix] in Hp.
    destruct (ascii_dec x c) as [<-|]; [|discriminate].
    cbn [PyStr.before String.prefix].
    destruct (ascii_dec a x); [congruence|].
    cbn [String.prefix]. destruct (ascii_dec x x); [|congruence].
    now apply IH.
Qed.

(** When no [sep] occurs before the first [a], cutting at [sep] first
    does not change what precedes that [a]. *)
Lemma before_before (a : ascii) (sep s : string) :
  PyStr.contains (String a EmptyString) sep = false ->
  PyStr.contains sep (PyStr.before (String a EmptyString) s) = false ->
  PyStr.before (String a EmptyString) (PyStr.before sep s) =
  PyStr.before (String a EmptyString) s.
Proof.
  intros Ha. induction s as [|c s IH]; intros Hc.
  - cbn [PyStr.before]. now destruct (String.prefix sep EmptyString).
  - cbn [PyStr.before] in *.
    destruct (String.prefix sep (String c s)) eqn:Hp.
    + apply (prefix_before a) in Hp; [|exact Ha].
      cbn [PyStr.before] in Hp.
      destruct (String.prefix (String a EmptyString) (String c s)) eqn:Hq.
      * reflexivity.
      * cbn [PyStr.contains] in Hc. now rewrite Hp in Hc.
    + cbn [PyStr.before].
      rewrite (prefix_char_tail a c (PyStr.before sep s) s).
      destruct (String.prefix (String a EmptyString) (String c s)) eqn:Hq;
        [reflexivity|].
      f_equal. apply IH.
      cbn [PyStr.contains] in Hc.
      now destruct (String.prefix sep
                      (String c (PyStr.before (String a EmptyString) s))).
Qed.

(** Value of the extraction expression whenever the identifier has a
    ["VID_"]. *)
Lemma vendor_id_expr_after (s post : string) :
  PyStr.after "VID_" s = Some post ->
  vendor_id_expr s = Ok (PyStr.before "&" (PyStr.before "VID_" post)).
Proof.
  intros H. unfold vendor_id_expr.
  rewrite split_first, H. cbn [bind PyStr.index nth_error].
  rewrite split_go_first, append_nil_l. cbn [bind PyStr.index nth_error].
  rewrite split_first. reflexivity.
Qed.

End Strings.

(** ** The formatter *)

Section Formatter.

Lemma set_vendor_id_ok (device : device) (dd : gmap string value) :
  set_vendor_id device dd =
    match device !! "DeviceID" with
    | Some (Str device_id) =>
        Ok (if PyStr.contains "VID_" device_id
            then <["Vendor ID" := Str (vendor_of_id device_id)]> dd
            else dd)
    | Some PyNone =>
        Raise (TypeError "argument of type 'NoneType' is not iterable")
    | None => Ok dd
    end.
Proof.
  unfold set_vendor_id, vendor_of_id.
  destruct (device !! "DeviceID") as [[device_id|]|]; try reflexivity.
  destruct (PyStr.contains "VID_" device_id) eqn:Hc; [|reflexivity].
  apply contains_after in Hc as [post Hpost].
  now rewrite (vendor_id_expr_after _ _ Hpost), Hpost.
Qed.

Lemma contains_false_vendor (device_id : string) :
  PyStr.contains "VID_" device_id = false -> vendor_of_id device_id = "Unknown".
Proof.
  intros Hc. unfold vendor_of_id.
  destruct (PyStr.after "VID_" device_id) eqn:Ha; [|reflexivity].
  assert (PyStr.contains "VID_" device_id = true) by (apply contains_after; eauto).
  congruence.
Qed.

(** [get_device_details] returns; it logs an error exactly when the
    identifier is null; its dictionary has the three keys with the values
    read off the device. *)
Lemma get_device_details_spec (device : device) :
  exists dd,
    get_device_details device = (details_log device, Ok dd) /\
    dd !! "Name" = Some (name_value device) /\
    dd !! "Vendor ID" = Some (Str (vendor_of device)) /\
    dd !! "Status" = Some (status_value device).
Proof.
  unfold get_device_details. rewrite set_vendor_id_ok.
  unfold details_log, status_value, null_id, vendor_of, name_value,
    set_status, set_name.
  destruct (device !! "Status"), (device !! "Caption"),
    (device !! "Description"),
    (device !! "DeviceID") as [[device_id|]|];
    try (destruct (PyStr.contains "VID_" device_id) eqn:Hc;
         [|rewrite (contains_false_vendor _ Hc)]);
    cbn [default]; eexists; (split; [reflexivity|]);
    repeat split; simplify_map_eq; reflexivity.
Qed.

Lemma found_message_ok (dd : gmap string value) (n v st : value) :
  dd !! "Name" = Some n -> dd !! "Vendor ID" = Some v ->
  dd !! "Status" = Some st ->
  found_message dd =
    Ok ("Device Found:" +:+ nl +:+ "Name: " +:+ format n +:+ nl +:+
        "Vendor ID: " +:+ format v +:+ nl +:+
        "Status: " +:+ format st +:+ nl +:+ rule).
Proof. intros Hn Hv Hs. unfold found_message, getitem. now rewrite Hn, Hv, Hs. Qed.

Lemma connected_message_ok (dd : gmap string value) (n v st : value) :
  dd !! "Name" = Some n -> dd !! "Vendor ID" = Some v ->
  dd !! "Status" = Some st ->
  connected_message dd =
    Ok ("New Device Connected:" +:+ nl +:+ "Name: " +:+ format n +:+ nl +:+
        "Vendor ID: " +:+ format v +:+ nl +:+
        "Status: " +:+ format st +:+ nl +:+ rule).
Proof.
  intros Hn Hv Hs. unfold connected_message, getitem. now rewrite Hn, Hv, Hs.
Qed.

Lemma disconnected_message_ok (dd : gmap string value) (n v : value) :
  dd !! "Name" = Some n -> dd !! "Vendor ID" = Some v ->
  disconnected_message dd =
    Ok ("Device Disconnected:" +:+ nl +:+ "Name: " +:+ format n +:+ nl +:+
        "Vendor ID: " +:+ format v +:+ nl +:+ rule).
Proof. intros Hn Hv. unfold disconnected_message, getitem. now rewrite Hn, Hv. Qed.

Lemma check_new_some (device : device) :
  check_new (Ok (Some device)) =
    (details_log device ++
     [Put ("New Device Connected:" +:+ nl +:+
           "Name: " +:+ name_of device +:+ nl +:+
           "Vendor ID: " +:+ vendor_of device +:+ nl +:+
           "Status: " +:+ status_of device +:+ nl +:+ rule);
      Log INFO ("New device connected: " +:+ name_of device)], Ok tt).
Proof.
  destruct (get_device_details_spec device) as (dd & Hd & Hn & Hv & Hs).
  unfold check_new, lift, pbind. rewrite Hd.
  rewrite (connected_message_ok _ _ _ _ Hn Hv Hs).
  unfold getitem. rewrite Hn. reflexivity.
Qed.

Lemma check_removed_some (device : device) :
  check_removed (Ok (Some device)) =
    (details_log device ++
     [Put ("Device Disconnected:" +:+ nl +:+
           "Name: " +:+ name_of device +:+ nl +:+
           "Vendor ID: " +:+ vendor_of device +:+ nl +:+ rule);
      Log INFO ("Device disconnected: " +:+ name_of device)], Ok tt).
Proof.
  destruct (get_device_details_spec device) as (dd & Hd & Hn & Hv & Hs).
  unfold check_removed, lift, pbind. rewrite Hd.
  rewrite (disconnected_message_ok _ _ _ Hn Hv).
  unfold getitem. rewrite Hn. reflexivity.
Qed.

Lemma for_each_found (current_devices : list device) :
  for_each current_devices (fun device =>
    run* details := get_device_details device in
    run* message := lift (found_message details) in
    event_queue_put message) =
  (flat_map (fun device =>
          details_log device ++
          [Put ("Device Found:" +:+ nl +:+
                "Name: " +:+ name_of device +:+ nl +:+
                "Vendor ID: " +:+ vendor_of device +:+ nl +:+
                "Status: " +:+ status_of device +:+ nl +:+ rule)])
       current_devices, Ok tt).
Proof.
  induction current_devices as [|device l IH]; [reflexivity|].
  cbn [for_each flat_map]. rewrite IH.
  destruct (get_device_details_spec device) as (dd & Hd & Hn & Hv & Hs).
  unfold lift, pbind. rewrite Hd.
  rewrite (found_message_ok _ _ _ _ Hn Hv Hs). reflexivity.
Qed.

Lemma enumerate_ok (current_devices : list device) :
  enumerate current_devices =
  (Put "=== Current USB Devices ===" ::
   flat_map (fun device =>
          details_log device ++
          [Put ("Device Found:" +:+ nl +:+
                "Name: " +:+ name_of device +:+ nl +:+
                "Vendor ID: " +:+ vendor_of device +:+ nl +:+
                "Status: " +:+ status_of device +:+ nl +:+ rule)])
       current_devices, Ok tt).
Proof. unfold enumerate. rewrite for_each_found. reflexivity. Qed.

End Formatter.

(** ** Vendor id, defaults and name precedence *)

(** C1.  For the identifier "USB\VID_1234&PID_5678\..." (whatever follows,
    the backslash written once or twice) the dictionary returned by
    [get_device_details] has vendor id "1234", which is the text between
    "VID_" and the next "&"; for every identifier without "VID_" the
    vendor id is "Unknown". *)
Theorem vendor_id_extraction (device : device) (device_id : string) :
  device !! "DeviceID" = Some (Str device_id) ->
  exists dd,
    get_device_details device = ([], Ok dd) /\
    (forall rest,
       device_id = id_1234 backslash rest \/
       device_id = id_1234 (backslash +:+ backslash) rest ->
       dd !! "Vendor ID" = Some (Str "1234") /\
       between_VID_and_amp device_id = Some "1234") /\
    (PyStr.contains "VID_" device_id = false ->
     dd !! "Vendor ID" = Some (Str "Unknown")).
Proof.
  intros Hid.
  destruct (get_device_details_spec device) as (dd & Hd & _ & Hv & _).
  exists dd. split.
  { rewrite Hd. unfold details_log, null_id. now rewrite Hid. }
  rewrite Hv. unfold vendor_of. rewrite Hid. split.
  - intros rest [-> | ->]; split; vm_compute; reflexivity.
  - intros Hc. now rewrite (contains_false_vendor _ Hc).
Qed.

Lemma vendor_id_extraction_witness :
  exists dd,
    get_device_details hub_1234 = ([], Ok dd) /\
    dd !! "Vendor ID" = Some (Str "1234").
Proof.
  destruct (vendor_id_extraction hub_1234 (id_1234 backslash "5&2ab1c0&0&1"))
    as (dd & Hd & Hv & _).
  - vm_compute; reflexivity.
  - exists dd. split; [exact Hd|].
    apply (Hv "5&2ab1c0&0&1"). left. reflexivity.
Defined.

(** C2, as stated, fails twice.  A device without [Caption] but with
    [Description] gets the description as its name, not "Unknown".  A
    device whose [DeviceID] is present but null makes the [try] block
    raise at the test for "VID_": the exception is caught and logged, and
    the status, though present, is not filled in. *)
Lemma defaults_not_as_claimed :
  (hub_described !! "Caption" = None /\
   exists dd,
     snd (get_device_details hub_described) = Ok dd /\
     dd !! "Name" = Some (Str "USB Root Hub") /\
     dd !! "Name" <> Some (Str "Unknown")) /\
  (hub_null_id !! "Status" = Some (Str "OK") /\
   exists dd,
     get_device_details hub_null_id =
       ([Log ERROR ("Error getting device details: " +:+
                    "argument of type 'NoneType' is not iterable")],
        Ok dd) /\
     dd !! "Status" = Some (Str "Unknown") /\
     dd !! "Status" <> Some (Str "OK")).
Proof.
  split.
  - split; [vm_compute; reflexivity|].
    eexists. split; [reflexivity|].
    split; [vm_compute; reflexivity | vm_compute; discriminate].
  - split; [vm_compute; reflexivity|].
    eexists. split; [reflexivity|].
    split; [vm_compute; reflexivity | vm_compute; discriminate].
Qed.

(** C2, amended.  For every device, whatever attributes it lacks,
    [get_device_details] returns without raising.  Its dictionary has as
    name the caption, else the description, and "Unknown" when both are
    missing.  With the identifier missing the vendor id is "Unknown";
    with a string identifier it is the one read from it; in both cases
    nothing is logged, and the status is the status of the device, or
    "Unknown" when that is missing.  With an identifier that is present
    but null, the exception is caught and logged as an error, and vendor
    id and status are both "Unknown". *)
Theorem get_device_details_defaults (device : device) :
  exists dd,
    get_device_details device = (details_log device, Ok dd) /\
    (device !! "Caption" = None -> device !! "Description" = None ->
     dd !! "Name" = Some (Str "Unknown")) /\
    (forall caption, device !! "Caption" = Some caption ->
     dd !! "Name" = Some caption) /\
    (forall description,
       device !! "Caption" = None ->
       device !! "Description" = Some description ->
       dd !! "Name" = Some description) /\
    (device !! "DeviceID" = None ->
     dd !! "Vendor ID" = Some (Str "Unknown") /\ details_log device = []) /\
    (forall device_id, device !! "DeviceID" = Some (Str device_id) ->
     dd !! "Vendor ID" = Some (Str (vendor_of_id device_id)) /\
     details_log device = []) /\
    (device !! "Status" = None -> dd !! "Status" = Some (Str "Unknown")) /\
    (forall status,
       device !! "Status" = Some status ->
       device !! "DeviceID" <> Some PyNone ->
       dd !! "Status" = Some status) /\
    (device !! "DeviceID" = Some PyNone ->
     dd !! "Vendor ID" = Some (Str "Unknown") /\
     dd !! "Status" = Some (Str "Unknown") /\
     details_log device =
       [Log ERROR ("Error getting device details: " +:+
                   "argument of type 'NoneType' is not iterable")]).
Proof.
  destruct (get_device_details_spec device) as (dd & Hd & Hn & Hv & Hs).
  exists dd. split; [exact Hd|].
  rewrite Hn, Hv, Hs.
  unfold name_value, vendor_of, status_value, details_log, null_id.
  repeat split; intros;
    repeat match goal with
           | H : _ !! _ = _ |- _ => rewrite H; clear H
           end;
    try reflexivity.
  - destruct (device !! "DeviceID") as [[s|]|]; reflexivity.
  - destruct (device !! "DeviceID") as [[s|]|]; [reflexivity | | reflexivity].
    congruence.
Qed.

Lemma get_device_details_defaults_witness :
  exists dd,
    get_device_details hub_nameless = ([], Ok dd) /\
    dd !! "Name" = Some (Str "Unknown") /\
    dd !! "Vendor ID" = Some (Str "Unknown") /\
    dd !! "Status" = Some (Str "OK").
Proof.
  destruct (get_device_details_defaults hub_nameless)
    as (dd & Hd & Hn & _ & _ & Hv & _ & _ & Hs & _).
  exists dd. split; [exact Hd|]. split; [|split].
  - apply Hn; vm_compute; reflexivity.
  - apply Hv; vm_compute; reflexivity.
  - apply Hs; [vm_compute; reflexivity | vm_compute; discriminate].
Defined.

(** C9.  A device with both a caption and a description is named by its
    caption; the description names it only when the caption is absent. *)
Theorem caption_precedence (device : device) (description : value) :
  device !! "Description" = Some description ->
  exists dd,
    get_device_details device = (details_log device, Ok dd) /\
    (forall caption, device !! "Caption" = Some caption ->
     dd !! "Name" = Some caption) /\
    (device !! "Caption" = None -> dd !! "Name" = Some description).
Proof.
  intros Hdesc.
  destruct (get_device_details_spec device) as (dd & Hd & Hn & _).
  exists dd. split; [exact Hd|].
  rewrite Hn. unfold name_value. split.
  - intros caption ->. reflexivity.
  - intros ->. now rewrite Hdesc.
Qed.

Lemma caption_precedence_witness :
  exists dd,
    get_device_details hub_both = ([], Ok dd) /\
    dd !! "Name" = Some (Str "Generic USB Hub").
Proof.
  destruct (caption_precedence hub_both (Str "USB Root Hub"))
    as (dd & Hd & Hc & _).
  - vm_compute; reflexivity.
  - exists dd. split; [exact Hd|]. apply Hc. vm_compute; reflexivity.
Defined.

(** C10, as stated, fails: with a second "VID_" before the next "&" the
    expression stops at that "VID_", so its value is not the text between
    the first "VID_" and the next "&". *)
Lemma second_VID_cuts_first :
  PyStr.contains "VID_" "USB-VID_12VID_34&PID_5" = true /\
  vendor_id_expr "USB-VID_12VID_34&PID_5" = Ok "12" /\
  between_VID_and_amp "USB-VID_12VID_34&PID_5" = Some "12VID_34".
Proof. repeat split; vm_compute; reflexivity. Qed.

(** C10, amended.  For every identifier that contains "VID_" the
    expression [split("VID_")[1].split("&")[0]] returns: neither index
    raises.  Its value is the text after the first "VID_" up to the next
    "VID_", the next "&" or the end of the string, whichever comes first;
    it is the text between the first "VID_" and the next "&" when no
    second "VID_" comes before that "&", and the empty string when "VID_"
    is followed at once by "&" or by the end of the string. *)
Theorem vendor_id_expr_total (device_id : string) :
  PyStr.contains "VID_" device_id = true ->
  exists post,
    PyStr.after "VID_" device_id = Some post /\
    device_id = PyStr.before "VID_" device_id +:+ "VID_" +:+ post /\
    vendor_id_expr device_id =
      Ok (PyStr.before "&" (PyStr.before "VID_" post)) /\
    (PyStr.contains "VID_" (PyStr.before "&" post) = false ->
     Some (PyStr.before "&" (PyStr.before "VID_" post)) =
       between_VID_and_amp device_id) /\
    (post = EmptyString \/ String.prefix "&" post = true ->
     vendor_id_expr device_id = Ok EmptyString).
Proof.
  intros Hc. apply contains_after in Hc as [post Hpost].
  exists post. split; [exact Hpost|].
  split; [now apply after_decompose|].
  rewrite (vendor_id_expr_after _ _ Hpost).
  split; [reflexivity|]. split.
  - intros Hno. unfold between_VID_and_amp. rewrite Hpost.
    now rewrite before_before.
  - intros [-> | Hamp]; [reflexivity|].
    destruct post as [|c post]; [discriminate|].
    apply prefix_char in Hamp as <-.
    change (PyStr.before "VID_" (String "&" post))
      with (String "&" (PyStr.before "VID_" post)).
    now rewrite before_at_sep.
Qed.

Lemma vendor_id_expr_total_witness :
  vendor_id_expr "USB-VID_&PID_5" = Ok EmptyString.
Proof.
  destruct (vendor_id_expr_total "USB-VID_&PID_5") as (post & Hp & _ & _ & _ & He).
  - vm_compute; reflexivity.
  - apply He. right.
    assert (post = "&PID_5") as -> by (vm_compute in Hp; congruence).
    reflexivity.
Defined.

(** ** Lines of a message *)

Section Lines.

Lemma split_go_char_app (a : ascii) (cur x y : string) :
  PyStr.split_go (String a EmptyString) 0 cur (x +:+ String a y) =
  PyStr.split_go (String a EmptyString) 0 cur x ++
  PyStr.split_go (String a EmptyString) 0 EmptyString y.
Proof.
  revert cur. induction x as [|c x IH]; intros cur.
  - rewrite append_nil_l. cbn [PyStr.split_go String.prefix].
    destruct (ascii_dec a a); [|congruence].
    rewrite prefix_nil. reflexivity.
  - rewrite append_cons. cbn [PyStr.split_go].
    rewrite (prefix_char_tail a c (x +:+ String a y) x).
    destruct (String.prefix (String a EmptyString) (String c x)).
    + cbn [String.length Nat.sub]. rewrite IH. reflexivity.
    + apply IH.
Qed.

Lemma lines_app (x y : string) : lines (x +:+ nl +:+ y) = lines x ++ lines y.
Proof. apply split_go_char_app. Qed.

Lemma before_char_app (a : ascii) (p s : string) :
  PyStr.contains (String a EmptyString) p = false ->
  PyStr.before (String a EmptyString) (p +:+ s) =
  p +:+ PyStr.before (String a EmptyString) s.
Proof.
  induction p as [|c p IH]; intros Hc.
  - reflexivity.
  - rewrite !append_cons. cbn [PyStr.before PyStr.contains] in *.
    rewrite (prefix_char_tail a c (p +:+ s) p).
    destruct (String.prefix (String a EmptyString) (String c p));
      [discriminate|].
    f_equal. now apply IH.
Qed.

Lemma lines_head (x : string) :
  exists t, lines x = PyStr.before nl x :: t.
Proof.
  unfold lines, nl. rewrite split_go_first, append_nil_l. eauto.
Qed.

(** A message that ends with the status and the rule has a status line,
    whatever precedes it. *)
Lemma status_line_present (x status : string) :
  exists l,
    In l (lines (x +:+ nl +:+ "Status: " +:+ status +:+ nl +:+ rule)) /\
    String.prefix "Status: " l = true.
Proof.
  rewrite lines_app.
  replace ("Status: " +:+ status +:+ nl +:+ rule)
    with (("Status: " +:+ status) +:+ nl +:+ rule)
    by now rewrite append_assoc.
  rewrite lines_app.
  destruct (lines_head ("Status: " +:+ status)) as [t Ht].
  rewrite Ht. unfold nl at 1.
  rewrite (before_char_app _ "Status: " status) by reflexivity.
  eexists. split.
  - apply in_or_app. right. apply in_or_app. left. left. reflexivity.
  - apply prefix_append.
Qed.

End Lines.

Section Messages.

Lemma contains_char_app (a : ascii) (p s : string) :
  PyStr.contains (String a EmptyString) p = false ->
  PyStr.contains (String a EmptyString) s = false ->
  PyStr.contains (String a EmptyString) (p +:+ s) = false.
Proof.
  intros Hp Hs. induction p as [|c p IH]; [exact Hs|].
  rewrite append_cons. cbn [PyStr.contains] in *.
  rewrite (prefix_char_tail a c (p +:+ s) p).
  destruct (String.prefix (String a EmptyString) (String c p));
    [discriminate | now apply IH].
Qed.

Lemma lines_single (x : string) :
  PyStr.contains nl x = false -> lines x = [x].
Proof.
  intros Hc. unfold lines, nl in *. rewrite split_go_first, append_nil_l.
  destruct (PyStr.after _ x) eqn:Ha.
  - assert (PyStr.contains (String (ascii_of_nat 10) EmptyString) x = true)
      by (apply contains_after; eauto).
    congruence.
  - now rewrite before_whole.
Qed.

Lemma name_of_status (device : device) (o : option value) :
  name_of (partial_alter (fun _ => o) "Status" device) = name_of device.
Proof.
  unfold name_of, name_value.
  now rewrite !lookup_partial_alter_ne by discriminate.
Qed.

Lemma vendor_of_status (device : device) (o : option value) :
  vendor_of (partial_alter (fun _ => o) "Status" device) = vendor_of device.
Proof. unfold vendor_of. now rewrite !lookup_partial_alter_ne by discriminate. Qed.

Lemma details_log_status (device : device) (o : option value) :
  details_log (partial_alter (fun _ => o) "Status" device) =
  details_log device.
Proof.
  unfold details_log, null_id.
  now rewrite !lookup_partial_alter_ne by discriminate.
Qed.

End Messages.

(** C6.  For every device the "Device Disconnected" message is made of
    the name and the vendor id only: it is the same whatever the status of
    the device, set, changed or absent, and with a one-line name and
    vendor id it has the four lines header, name, vendor id and rule.  The
    "New Device Connected" and "Device Found" messages carry the status
    and each has a line that starts with "Status: ". *)
Theorem deletion_message_omits_status (device : device) :
  check_removed (Ok (Some device)) =
    (details_log device ++
     [Put ("Device Disconnected:" +:+ nl +:+
           "Name: " +:+ name_of device +:+ nl +:+
           "Vendor ID: " +:+ vendor_of device +:+ nl +:+ rule);
      Log INFO ("Device disconnected: " +:+ name_of device)], Ok tt) /\
  (forall status,
     check_removed (Ok (Some (<["Status" := status]> device))) =
     check_removed (Ok (Some device))) /\
  check_removed (Ok (Some (delete "Status" device))) =
    check_removed (Ok (Some device)) /\
  (PyStr.contains nl (name_of device) = false ->
   PyStr.contains nl (vendor_of device) = false ->
   lines ("Device Disconnected:" +:+ nl +:+
          "Name: " +:+ name_of device +:+ nl +:+
          "Vendor ID: " +:+ vendor_of device +:+ nl +:+ rule) =
     ["Device Disconnected:"; "Name: " +:+ name_of device;
      "Vendor ID: " +:+ vendor_of device; rule]) /\
  (exists message,
     check_new (Ok (Some device)) =
       (details_log device ++
        [Put message; Log INFO ("New device connected: " +:+ name_of device)],
        Ok tt) /\
     message = "New Device Connected:" +:+ nl +:+
               "Name: " +:+ name_of device +:+ nl +:+
               "Vendor ID: " +:+ vendor_of device +:+ nl +:+
               "Status: " +:+ status_of device +:+ nl +:+ rule /\
     exists l, In l (lines message) /\ String.prefix "Status: " l = true) /\
  (exists message,
     enumerate [device] =
       (Put "=== Current USB Devices ===" ::
        details_log device ++ [Put message], Ok tt) /\
     message = "Device Found:" +:+ nl +:+
               "Name: " +:+ name_of device +:+ nl +:+
               "Vendor ID: " +:+ vendor_of device +:+ nl +:+
               "Status: " +:+ status_of device +:+ nl +:+ rule /\
     exists l, In l (lines message) /\ String.prefix "Status: " l = true).
Proof.
  split; [apply check_removed_some|].
  split.
  { intros status. rewrite !check_removed_some.
    unfold insert, map_insert.
    now rewrite name_of_status, vendor_of_status, details_log_status. }
  split.
  { rewrite !check_removed_some. unfold delete, map_delete.
    now rewrite name_of_status, vendor_of_status, details_log_status. }
  split.
  { intros Hn Hv.
    replace ("Name: " +:+ name_of device +:+ nl +:+
             "Vendor ID: " +:+ vendor_of device +:+ nl +:+ rule)
      with (("Name: " +:+ name_of device) +:+ nl +:+
            ("Vendor ID: " +:+ vendor_of device) +:+ nl +:+ rule)
      by now rewrite !append_assoc.
    rewrite !lines_app.
    rewrite (lines_single ("Name: " +:+ name_of device))
      by (apply contains_char_app; [reflexivity | exact Hn]).
    rewrite (lines_single ("Vendor ID: " +:+ vendor_of device))
      by (apply contains_char_app; [reflexivity | exact Hv]).
    reflexivity. }
  split.
  - eexists. split; [apply check_new_some|]. split; [reflexivity|].
    replace ("New Device Connected:" +:+ nl +:+
             "Name: " +:+ name_of device +:+ nl +:+
             "Vendor ID: " +:+ vendor_of device +:+ nl +:+
             "Status: " +:+ status_of device +:+ nl +:+ rule)
      with (("New Device Connected:" +:+ nl +:+
             "Name: " +:+ name_of device +:+ nl +:+
             "Vendor ID: " +:+ vendor_of device) +:+ nl +:+
             "Status: " +:+ status_of device +:+ nl +:+ rule)
      by now rewrite !append_assoc.
    apply status_line_present.
  - eexists.
    split; [rewrite enumerate_ok; cbn [flat_map]; now rewrite app_nil_r|].
    split; [reflexivity|].
    replace ("Device Found:" +:+ nl +:+
             "Name: " +:+ name_of device +:+ nl +:+
             "Vendor ID: " +:+ vendor_of device +:+ nl +:+
             "Status: " +:+ status_of device +:+ nl +:+ rule)
      with (("Device Found:" +:+ nl +:+
             "Name: " +:+ name_of device +:+ nl +:+
             "Vendor ID: " +:+ vendor_of device) +:+ nl +:+
             "Status: " +:+ status_of device +:+ nl +:+ rule)
      by now rewrite !append_assoc.
    apply status_line_present.
Qed.

Lemma deletion_message_omits_status_witness :
  lines ("Device Disconnected:" +:+ nl +:+
         "Name: " +:+ name_of test_device +:+ nl +:+
         "Vendor ID: " +:+ vendor_of test_device +:+ nl +:+ rule) =
    ["Device Disconnected:"; "Name: " +:+ name_of test_device;
     "Vendor ID: " +:+ vendor_of test_device; rule].
Proof.
  destruct (deletion_message_omits_status test_device)
    as (_ & _ & _ & Hl & _).
  apply Hl; vm_compute; reflexivity.
Defined.

(** ** The monitor thread *)

Section Monitor.

Lemma run_cons (a : action) (rest : list action) (s : system) :
  run (a :: rest) s =
    (fst (run rest (fst (step a s))),
     snd (step a s) ++ snd (run rest (fst (step a s)))).
Proof.
  cbn [run]. destruct (step a s) as [s1 evs1]. cbn [fst snd].
  destruct (run rest s1) as [s2 evs2]. reflexivity.
Qed.

Lemma puts_app (x y : list event) : puts (x ++ y) = puts x ++ puts y.
Proof. apply flat_map_app. Qed.

Lemma inserts_app (x y : list event) : inserts (x ++ y) = inserts x ++ inserts y.
Proof. apply flat_map_app. Qed.

Lemma waits_app (x y : list event) : waits (x ++ y) = waits x ++ waits y.
Proof. apply flat_map_app. Qed.

Lemma iterations_app (x y : list event) :
  iterations (x ++ y) = iterations x + iterations y.
Proof. unfold iterations. now rewrite List.filter_app, length_app. Qed.


(** A step of the GUI thread puts nothing, waits for nothing and begins
    no iteration. *)
Lemma gui_step_events (input : gui_input) (t : gui_thread) (g : shared) :
  puts (snd (gui_step input t g)) = [] /\
  waits (snd (gui_step input t g)) = [] /\
  iterations (snd (gui_step input t g)) = 0.
Proof.
  unfold gui_step, update_gui_from_queue, cleanup.
  destruct (gctl_of t), input, (timer t), (event_queue g); repeat split.
Qed.

Lemma step_gui (input : gui_input) (s : system) :
  step (Gui input) s =
    ({| globals := snd (fst (gui_step input (gui s) (globals s)));
        monitor := monitor s;
        gui := fst (fst (gui_step input (gui s) (globals s))) |},
     snd (gui_step input (gui s) (globals s))).
Proof.
  cbn [step]. now destruct (gui_step input (gui s) (globals s)) as [[t g] evs].
Qed.

Lemma step_monitor (os : os_reply) (s : system) :
  step (Monitor os) s =
    ({| globals := snd (fst (monitor_devices os (monitor s) (globals s)));
        monitor := fst (fst (monitor_devices os (monitor s) (globals s)));
        gui := gui s |},
     snd (monitor_devices os (monitor s) (globals s))).
Proof.
  cbn [step].
  now destruct (monitor_devices os (monitor s) (globals s)) as [[w g] evs].
Qed.

(** Once the thread has returned it does nothing more. *)
Lemma done_stays (schedule : list action) (s : system) :
  monitor s = {| pending := []; ctl := Done |} ->
  monitor (fst (run schedule s)) = {| pending := []; ctl := Done |} /\
  puts (snd (run schedule s)) = [] /\
  waits (snd (run schedule s)) = [] /\
  iterations (snd (run schedule s)) = 0.
Proof.
  revert s. induction schedule as [|a rest IH]; intros s Hs.
  - repeat split. exact Hs.
  - rewrite run_cons. cbn [fst snd].
    rewrite puts_app, waits_app, iterations_app.
    assert (monitor (fst (step a s)) = {| pending := []; ctl := Done |} /\
            puts (snd (step a s)) = [] /\ waits (snd (step a s)) = [] /\
            iterations (snd (step a s)) = 0) as (H1 & -> & -> & ->).
    { destruct a as [os|input].
      - rewrite step_monitor. cbn [fst snd monitor]. rewrite Hs.
        repeat split.
      - rewrite step_gui. cbn [fst snd monitor].
        split; [exact Hs | apply gui_step_events]. }
    apply (IH _ H1).
Qed.

End Monitor.

(** C3.  Started with no current device, the thread queues the one
    message "=== Current USB Devices ===" and goes to the polling loop
    with nothing more to queue.  When the creation watcher returns a
    device with caption "Test Device" and identifier
    "USB\VID_ABCD&PID_0001" (the backslash written once or twice), the
    thread queues one message, which has the lines "Name: Test Device"
    and "Vendor ID: ABCD" and a line that starts with "Status: ". *)
Theorem startup_and_creation (os0 os : os_reply) (g : shared)
  (t : gui_thread) (device : device) (sep : string) :
  hub_query os0 = Ok [] ->
  watcher_event os = Ok (Some device) ->
  device !! "Caption" = Some (Str "Test Device") ->
  device !! "DeviceID" = Some (Str (id_ABCD sep)) ->
  sep = backslash \/ sep = backslash +:+ backslash ->
  run [Monitor os0; Monitor os0] initial =
    (at_ctl {| logger := []; text_box := EmptyString;
               event_queue := ["=== Current USB Devices ==="];
               running := true |} (gui initial) At_loop_head,
     [Ev_put "=== Current USB Devices ==="]) /\
  exists message,
    message = "New Device Connected:" +:+ nl +:+
              "Name: Test Device" +:+ nl +:+
              "Vendor ID: ABCD" +:+ nl +:+
              "Status: " +:+ status_of device +:+ nl +:+ rule /\
    run [Monitor os; Monitor os; Monitor os] (at_ctl g t At_creation_wait) =
      (at_ctl
         (set_logger
            (fun l => l ++ [(INFO, "New device connected: Test Device")])
            (set_event_queue (fun q => q ++ [message]) g))
         t At_deletion_wait,
       [Ev_wait (waited_ms os); Ev_put message]) /\
    In "Name: Test Device" (lines message) /\
    In "Vendor ID: ABCD" (lines message) /\
    exists l, In l (lines message) /\ String.prefix "Status: " l = true.
Proof.
  intros H0 Hev Hcap Hid Hsep. split.
  - unfold run, step, initial, at_ctl.
    cbn [monitor globals gui monitor_devices pending ctl].
    rewrite H0. unfold startup, lift, pbind. rewrite enumerate_ok.
    reflexivity.
  - assert (name_of device = "Test Device") as Hn
      by (unfold name_of, name_value; now rewrite Hcap).
    assert (vendor_of device = "ABCD") as Hv
      by (unfold vendor_of; rewrite Hid;
          destruct Hsep as [-> | ->]; vm_compute; reflexivity).
    assert (details_log device = []) as Hl
      by (unfold details_log, null_id; now rewrite Hid).
    eexists. split; [reflexivity|]. split; [|split; [|split]].
    + unfold run, step, at_ctl.
      cbn [monitor globals gui monitor_devices pending ctl].
      rewrite Hev, check_new_some, Hl, Hn, Hv. reflexivity.
    + rewrite !lines_app. apply in_or_app. right. apply in_or_app. left.
      now left.
    + rewrite !lines_app. do 2 (apply in_or_app; right).
      apply in_or_app. left. now left.
    + replace ("New Device Connected:" +:+ nl +:+
               "Name: Test Device" +:+ nl +:+ "Vendor ID: ABCD" +:+ nl +:+
               "Status: " +:+ status_of device +:+ nl +:+ rule)
        with (("New Device Connected:" +:+ nl +:+
               "Name: Test Device" +:+ nl +:+ "Vendor ID: ABCD") +:+ nl +:+
               "Status: " +:+ status_of device +:+ nl +:+ rule)
        by now rewrite !append_assoc.
      apply status_line_present.
Qed.

Lemma startup_and_creation_witness :
  exists message,
    run [Monitor (reply_of (Ok []) (Ok (Some test_device)));
         Monitor (reply_of (Ok []) (Ok (Some test_device)));
         Monitor (reply_of (Ok []) (Ok (Some test_device)))]
      (at_ctl (globals initial) (gui initial) At_creation_wait) =
      (at_ctl
         (set_logger
            (fun l => l ++ [(INFO, "New device connected: Test Device")])
            (set_event_queue (fun q => q ++ [message]) (globals initial)))
         (gui initial) At_deletion_wait,
       [Ev_wait 100; Ev_put message]) /\
    In "Name: Test Device" (lines message) /\
    In "Vendor ID: ABCD" (lines message).
Proof.
  destruct (startup_and_creation
              (reply_of (Ok []) (Ok (Some test_device)))
              (reply_of (Ok []) (Ok (Some test_device)))
              (globals initial) (gui initial) test_device backslash)
    as (_ & message & _ & Hrun & Hname & Hvendor & _).
  - reflexivity.
  - reflexivity.
  - vm_compute; reflexivity.
  - vm_compute; reflexivity.
  - left; reflexivity.
  - exists message. split; [exact Hrun | split; assumption].
Defined.

(** C4, as stated, fails for the errors of watcher set-up and of the
    enumeration: they are raised before the loop, the thread reports
    them and returns, and no poll iteration ever begins although
    [running] is still true. *)
Lemma setup_failure_ends_monitor :
  monitor (fst (run [Monitor down; Monitor down; Monitor down; Monitor down]
                    initial)) = {| pending := []; ctl := Done |} /\
  running (globals (fst (run [Monitor down; Monitor down; Monitor down;
                              Monitor down] initial))) = true /\
  event_queue (globals (fst (run [Monitor down; Monitor down; Monitor down;
                                  Monitor down] initial))) =
    ["Error initializing device monitoring: RPC server is unavailable"] /\
  forall schedule,
    iterations
      (snd (run schedule
              (fst (run [Monitor down; Monitor down; Monitor down;
                         Monitor down] initial)))) = 0 /\
    waits
      (snd (run schedule
              (fst (run [Monitor down; Monitor down; Monitor down;
                         Monitor down] initial)))) = [].
Proof.
  split; [reflexivity|]. split; [reflexivity|]. split; [reflexivity|].
  intros schedule.
  destruct (done_stays schedule
              (fst (run [Monitor down; Monitor down; Monitor down;
                         Monitor down] initial)) eq_refl)
    as (_ & _ & Hw & Hi).
  split; assumption.
Qed.

(** C4, amended.  In the polling loop a time-out of the creation wait or
    of the deletion wait changes no shared object and leads back to the
    loop test; any other exception of a wait is logged as an error and
    queued as a message, and leads back to the loop test as well.  A
    failure of the connection, of the watcher set-up or of the
    enumeration is logged and queued too, but then the thread returns
    without entering the loop. *)
Theorem poll_failures (g : shared) (t : gui_thread)
  (devices : result (list device)) (event : result (option device))
  (ms : nat) (msg : string) (e : exn) :
  let timed_out := {| hub_query := devices;
                      watcher_event := Raise (x_wmi_timed_out msg);
                      waited_ms := ms |} in
  let failed := {| hub_query := devices;
                   watcher_event := Raise (Exception msg);
                   waited_ms := ms |} in
  let unavailable := {| hub_query := Raise e; watcher_event := event;
                 waited_ms := ms |} in
  let reported :=
    set_event_queue (fun q => q ++ ["Error monitoring devices: " +:+ msg])
      (set_logger
         (fun l => l ++ [(ERROR, "Error in device monitoring: " +:+ msg)]) g) in
  let aborted :=
    set_event_queue
      (fun q => q ++ ["Error initializing device monitoring: " +:+ str e])
      (set_logger
         (fun l => l ++ [(ERROR, "Error in monitor_devices: " +:+ str e)]) g) in
  run [Monitor timed_out] (at_ctl g t At_creation_wait) =
    (at_ctl g t At_loop_head, [Ev_wait ms]) /\
  run [Monitor timed_out] (at_ctl g t At_deletion_wait) =
    (at_ctl g t At_loop_head, [Ev_wait ms]) /\
  run [Monitor failed; Monitor failed; Monitor failed]
      (at_ctl g t At_creation_wait) =
    (at_ctl reported t At_loop_head,
     [Ev_wait ms; Ev_put ("Error monitoring devices: " +:+ msg)]) /\
  run [Monitor failed; Monitor failed; Monitor failed]
      (at_ctl g t At_deletion_wait) =
    (at_ctl reported t At_loop_head,
     [Ev_wait ms; Ev_put ("Error monitoring devices: " +:+ msg)]) /\
  run [Monitor failed] (at_ctl reported t At_loop_head) =
    (if running g
     then (at_ctl reported t At_creation_wait, [Ev_iteration])
     else (at_ctl reported t At_finally, [])) /\
  run [Monitor unavailable; Monitor unavailable; Monitor unavailable; Monitor unavailable]
      (at_ctl g t At_init) =
    (at_ctl aborted t Done,
     [Ev_put ("Error initializing device monitoring: " +:+ str e)]) /\
  forall schedule,
    iterations (snd (run schedule (at_ctl aborted t Done))) = 0 /\
    waits (snd (run schedule (at_ctl aborted t Done))) = [].
Proof.
  cbv zeta. repeat split; try reflexivity.
  - cbn. now destruct (running g).
  - now destruct (done_stays schedule (at_ctl
      (set_event_queue
         (fun q => q ++ ["Error initializing device monitoring: " +:+ str e])
         (set_logger
            (fun l => l ++ [(ERROR, "Error in monitor_devices: " +:+ str e)])
            g)) t Done) eq_refl) as (_ & _ & _ & ->).
  - now destruct (done_stays schedule (at_ctl
      (set_event_queue
         (fun q => q ++ ["Error initializing device monitoring: " +:+ str e])
         (set_logger
            (fun l => l ++ [(ERROR, "Error in monitor_devices: " +:+ str e)])
            g)) t Done) eq_refl) as (_ & _ & -> & _).
Qed.

(** ** The queue and the text box *)

Section Display.

Lemma perform_queue (o : op) (g : shared) :
  event_queue g ++ puts (snd (perform o g)) =
    event_queue (fst (perform o g)) /\
  inserts (snd (perform o g)) = [] /\
  text_box (fst (perform o g)) = display (text_box g) (snd (perform o g)).
Proof. destruct o; cbn; rewrite ?app_nil_r; repeat split. Qed.

(** One step of either thread keeps the queue first-in first-out and
    shows in the text box what it took from the queue. *)
Lemma step_queue (a : action) (s : system) :
  event_queue (globals s) ++ puts (snd (step a s)) =
    inserts (snd (step a s)) ++ event_queue (globals (fst (step a s))) /\
  text_box (globals (fst (step a s))) =
    display (text_box (globals s)) (snd (step a s)).
Proof.
  destruct a as [os|input].
  - rewrite step_monitor. cbn [fst snd globals].
    unfold monitor_devices.
    destruct (pending (monitor s)) as [|o rest].
    + destruct (ctl (monitor s)); try destruct (running (globals s));
        cbn; rewrite ?app_nil_r; split; reflexivity.
    + destruct (perform_queue o (globals s)) as (Hq & Hi & Ht).
      destruct (perform o (globals s)) as [g' evs]. cbn [fst snd] in *.
      now rewrite Hq, Hi.
  - rewrite step_gui. cbn [fst snd globals].
    unfold gui_step, update_gui_from_queue, cleanup.
    destruct (gctl_of (gui s)), input, (timer (gui s)),
      (event_queue (globals s)) eqn:Hq;
      cbn; rewrite ?app_nil_r, ?Hq; split; reflexivity.
Qed.

End Display.

(** C7.  A click on "Clear Log", dispatched by the idle main loop, empties
    the text box and nothing else: the records of the log file, the event
    queue, the running flag and both threads are as before. *)
Theorem clear_log_frame (g : shared) (w : worker) (armed : bool) :
  let s := {| globals := g; monitor := w;
              gui := {| gctl_of := Idle; timer := armed |} |} in
  step (Gui Click_clear_log) s =
    ({| globals := clear_log g; monitor := w; gui := gui s |}, [Ev_clear]) /\
  text_box (clear_log g) = EmptyString /\
  logger (clear_log g) = logger g /\
  event_queue (clear_log g) = event_queue g /\
  running (clear_log g) = running g.
Proof. repeat split. Qed.


(** ** Shutdown *)

Section Shutdown.

Lemma details_log_shape (device : device) :
  details_log device = [] \/ exists msg, details_log device = [Log ERROR msg].
Proof. unfold details_log. destruct (null_id device); eauto. Qed.

Lemma check_new_shape (reply : result (option device)) :
  check_new reply = ([], Ok tt) \/
  (exists pre m l,
     check_new reply = (pre ++ [Put m; Log INFO l], Ok tt) /\
     (pre = [] \/ exists msg, pre = [Log ERROR msg])) \/
  (exists e, check_new reply = ([], Raise e)).
Proof.
  destruct reply as [[device|]|e].
  - right. left. rewrite check_new_some.
    do 3 eexists. split; [reflexivity | apply details_log_shape].
  - left. reflexivity.
  - right. right. eauto.
Qed.

Lemma check_removed_shape (reply : result (option device)) :
  check_removed reply = ([], Ok tt) \/
  (exists pre m l,
     check_removed reply = (pre ++ [Put m; Log INFO l], Ok tt) /\
     (pre = [] \/ exists msg, pre = [Log ERROR msg])) \/
  (exists e, check_removed reply = ([], Raise e)).
Proof.
  destruct reply as [[device|]|e].
  - right. left. rewrite check_removed_some.
    do 3 eexists. split; [reflexivity | apply details_log_shape].
  - left. reflexivity.
  - right. right. eauto.
Qed.

(** After a watcher call at most three calls on the shared objects are
    pending, and the thread is on its way to [next] or to the loop test. *)
Lemma try_poll_bound (body : prog unit) (next : wctl) :
  body = ([], Ok tt) \/
  (exists pre m l,
     body = (pre ++ [Put m; Log INFO l], Ok tt) /\
     (pre = [] \/ exists msg, pre = [Log ERROR msg])) \/
  (exists e, body = ([], Raise e)) ->
  length (pending (try_poll body next)) <= 3 /\
  (ctl (try_poll body next) = next \/
   ctl (try_poll body next) = At_loop_head).
Proof.
  intros [-> | [(pre & m & l & -> & [-> | [msg ->]]) | ([msg|msg] & ->)]];
    cbn; split; auto.
Qed.

Lemma perform_running (o : op) (g : shared) :
  running (fst (perform o g)) = running g /\
  waits (snd (perform o g)) = [] /\
  iterations (snd (perform o g)) = 0.
Proof. destruct o; repeat split. Qed.

Lemma monitor_devices_running (os : os_reply) (w : worker) (g : shared) :
  running (snd (fst (monitor_devices os w g))) = running g.
Proof.
  unfold monitor_devices. destruct (pending w) as [|o rest].
  - destruct (ctl w); try destruct (running g) eqn:Hr; cbn; congruence.
  - destruct (perform_running o g) as (Hr & _).
    destruct (perform o g) as [g' evs]. exact Hr.
Qed.

Lemma gui_step_running (input : gui_input) (t : gui_thread) (g : shared) :
  running g = false -> running (snd (fst (gui_step input t g))) = false.
Proof.
  intros Hr. unfold gui_step, update_gui_from_queue, cleanup.
  destruct (gctl_of t), input, (timer t), (event_queue g); cbn;
    first [exact Hr | reflexivity].
Qed.

(** A watcher call of a step is the call the schedule answers. *)
Lemma step_waits (a : action) (s : system) :
  waits (snd (step a s)) = [] \/
  exists os, a = Monitor os /\ waits (snd (step a s)) = [waited_ms os].
Proof.
  destruct a as [os|input].
  - rewrite step_monitor. cbn [snd]. unfold monitor_devices.
    destruct (pending (monitor s)) as [|o rest].
    + destruct (ctl (monitor s)); try destruct (running (globals s));
        cbn; eauto.
    + destruct (perform_running o (globals s)) as (_ & Hw & _).
      destruct (perform o (globals s)) as [g' evs]. now left.
  - rewrite step_gui. left. apply gui_step_events.
Qed.

(** The [while] test is passed only when [running] is read true. *)
Lemma step_iterations (a : action) (s : system) :
  iterations (snd (step a s)) <= (if running (globals s) then 1 else 0).
Proof.
  destruct a as [os|input].
  - rewrite step_monitor. cbn [snd]. unfold monitor_devices.
    destruct (pending (monitor s)) as [|o rest].
    + destruct (ctl (monitor s)); destruct (running (globals s));
        cbn; lia.
    + destruct (perform_running o (globals s)) as (_ & _ & Hi).
      destruct (perform o (globals s)) as [g' evs]. cbn [snd] in *.
      rewrite Hi. lia.
  - rewrite step_gui. cbn [snd].
    destruct (gui_step_events input (gui s) (globals s)) as (_ & _ & ->).
    lia.
Qed.

(** One step with [running] false. *)
Lemma step_stopped (a : action) (s : system) :
  running (globals s) = false ->
  running (globals (fst (step a s))) = false /\
  length (waits (snd (step a s))) +
    waits_left (ctl (monitor (fst (step a s)))) <=
    waits_left (ctl (monitor s)) /\
  (ctl (monitor s) <> At_init ->
   ctl (monitor (fst (step a s))) <> At_init /\
   exit_bound (monitor (fst (step a s))) <=
     exit_bound (monitor s) - monitor_steps [a]).
Proof.
  intros Hr. destruct a as [os|input].
  - rewrite step_monitor. cbn [fst snd globals monitor].
    rewrite monitor_devices_running. split; [exact Hr|].
    unfold monitor_devices, exit_bound, monitor_steps.
    destruct (monitor s) as [ops c]. cbn [pending ctl].
    destruct ops as [|o rest].
    + destruct c; rewrite ?Hr; cbn [fst snd ctl pending waits flat_map
        app length waits_left List.filter].
      * split; [|congruence].
        unfold startup.
        destruct (pbind (lift (hub_query os)) _) as [ops [u|e]];
          cbn; lia.
      * split; [lia|]. split; [discriminate | lia].
      * destruct (try_poll_bound (check_new (watcher_event os))
                    At_deletion_wait (check_new_shape _))
          as (Hl & [-> | ->]); cbn [waits_left]; split; try lia;
          split; try discriminate; lia.
      * destruct (try_poll_bound (check_removed (watcher_event os))
                    At_loop_head (check_removed_shape _))
          as (Hl & [-> | ->]); cbn [waits_left]; split; try lia;
          split; try discriminate; lia.
      * split; [lia|]. split; [discriminate | lia].
      * split; [lia|]. split; [discriminate | lia].
    + destruct (perform_running o (globals s)) as (_ & Hw & _).
      destruct (perform o (globals s)) as [g' evs].
      cbn [fst snd pending ctl length] in *. rewrite Hw.
      split; [cbn; lia|]. intros Hc. split; [exact Hc|].
      cbn [List.filter length]. lia.
  - rewrite step_gui. cbn [fst snd globals monitor].
    destruct (gui_step_events input (gui s) (globals s)) as (_ & -> & _).
    split; [now apply gui_step_running|].
    split; [cbn; lia|]. intros Hc. split; [exact Hc|].
    unfold monitor_steps. cbn. lia.
Qed.

End Shutdown.

Section Latency.

Lemma monitor_steps_cons (a : action) (rest : list action) :
  monitor_steps (a :: rest) = monitor_steps [a] + monitor_steps rest.
Proof. unfold monitor_steps. now destruct a. Qed.

Lemma run_stopped (schedule : list action) (s : system) :
  running (globals s) = false ->
  running (globals (fst (run schedule s))) = false /\
  iterations (snd (run schedule s)) = 0 /\
  length (waits (snd (run schedule s))) +
    waits_left (ctl (monitor (fst (run schedule s)))) <=
    waits_left (ctl (monitor s)) /\
  (ctl (monitor s) <> At_init ->
   ctl (monitor (fst (run schedule s))) <> At_init /\
   exit_bound (monitor (fst (run schedule s))) <=
     exit_bound (monitor s) - monitor_steps schedule).
Proof.
  revert s. induction schedule as [|a rest IH]; intros s Hr.
  - cbn. repeat split; auto; lia.
  - rewrite run_cons. cbn [fst snd].
    destruct (step_stopped a s Hr) as (Hr1 & Hw1 & He1).
    destruct (IH _ Hr1) as (Hr2 & Hi2 & Hw2 & He2).
    pose proof (step_iterations a s) as Hi1. rewrite Hr in Hi1.
    rewrite iterations_app, waits_app, length_app, monitor_steps_cons.
    split; [exact Hr2|]. split; [lia|]. split; [lia|].
    intros Hc. destruct (He1 Hc) as (Hc1 & Hb1).
    destruct (He2 Hc1) as (Hc2 & Hb2). split; [exact Hc2 | lia].
Qed.

Lemma run_timed (schedule : list action) (s : system) :
  well_timed schedule = true ->
  list_sum (waits (snd (run schedule s))) <=
    timeout_ms * length (waits (snd (run schedule s))).
Proof.
  revert s. induction schedule as [|a rest IH]; intros s Ht.
  - cbn. lia.
  - rewrite run_cons. cbn [fst snd].
    cbn [well_timed forallb] in Ht. apply andb_true_iff in Ht as [Ha Hrest].
    specialize (IH (fst (step a s)) Hrest).
    rewrite waits_app, list_sum_app, length_app.
    destruct (step_waits a s) as [-> | (os & -> & ->)].
    + cbn [list_sum fold_right length]. lia.
    + apply Nat.leb_le in Ha. cbn [list_sum fold_right length]. lia.
Qed.

Lemma exit_bound_zero (w : worker) :
  ctl w <> At_init -> exit_bound w = 0 -> w = {| pending := []; ctl := Done |}.
Proof.
  destruct w as [ops c]. unfold exit_bound. cbn [pending ctl].
  intros Hc Hb. destruct ops; [|cbn in Hb; lia].
  destruct c; cbn in Hb; try lia; congruence.
Qed.

End Latency.

(** C5.  The [while] test is passed only by reading [running] true, so
    each poll iteration begins with a read of the flag.  Once [running]
    is false it stays false; no iteration begins any more; the thread
    makes at most two more watcher calls, the one it is in and one more,
    which with watchers that honour the 100 ms time-out take at most
    200 ms together; and inside the loop it has returned after at most
    [exit_bound] of its own steps. *)
Theorem shutdown_latency (schedule : list action) (s : system) :
  running (globals s) = false ->
  well_timed schedule = true ->
  (forall a s0,
     iterations (snd (step a s0)) <=
       (if running (globals s0) then 1 else 0)) /\
  running (globals (fst (run schedule s))) = false /\
  iterations (snd (run schedule s)) = 0 /\
  length (waits (snd (run schedule s))) <= 2 /\
  list_sum (waits (snd (run schedule s))) <= 200 /\
  (ctl (monitor s) <> At_init ->
   exit_bound (monitor s) <= monitor_steps schedule ->
   monitor (fst (run schedule s)) = {| pending := []; ctl := Done |}).
Proof.
  intros Hr Ht.
  destruct (run_stopped schedule s Hr) as (Hr' & Hi & Hw & He).
  pose proof (run_timed schedule s Ht) as Hsum.
  assert (waits_left (ctl (monitor s)) <= 2)
    by (destruct (ctl (monitor s)); cbn; lia).
  split; [exact step_iterations|]. split; [exact Hr'|].
  split; [exact Hi|]. split; [lia|]. split.
  - unfold timeout_ms in Hsum. lia.
  - intros Hc Hb. destruct (He Hc) as (Hc' & Hb').
    apply exit_bound_zero; [exact Hc' | lia].
Qed.

Lemma shutdown_latency_witness :
  monitor (fst (run ten_steps stopped)) = {| pending := []; ctl := Done |} /\
  length (waits (snd (run ten_steps stopped))) <= 2 /\
  list_sum (waits (snd (run ten_steps stopped))) <= 200.
Proof.
  destruct (shutdown_latency ten_steps stopped)
    as (_ & _ & _ & Hw & Hsum & Hd).
  - reflexivity.
  - reflexivity.
  - split; [|split; assumption].
    apply Hd; [discriminate | vm_compute; lia].
Defined.

(** * Further properties of the code *)

(** ** The dictionary of [get_device_details] *)

Section Details.

Lemma prefix_app_mono (sep x y : string) :
  String.prefix sep x = true -> String.prefix sep (x +:+ y) = true.
Proof.
  revert x. induction sep as [|a sep IH]; intros x H.
  - apply prefix_nil.
  - destruct x as [|c x]; [discriminate|].
    rewrite append_cons. cbn [String.prefix] in *.
    destruct (ascii_dec a c); [now apply IH | discriminate].
Qed.

Lemma contains_app_mono (sep x y : string) :
  PyStr.contains sep x = true -> PyStr.contains sep (x +:+ y) = true.
Proof.
  induction x as [|c x IH]; intros H.
  - cbn [PyStr.contains] in H.
    destruct (String.prefix sep EmptyString) eqn:Hp; [|discriminate].
    apply (prefix_app_mono _ _ y) in Hp. rewrite append_nil_l in *.
    destruct y; cbn [PyStr.contains]; now rewrite Hp.
  - rewrite append_cons. cbn [PyStr.contains] in *.
    destruct (String.prefix sep (String c x)) eqn:Hp.
    + apply (prefix_app_mono _ _ y) in Hp. rewrite append_cons in Hp.
      now rewrite Hp.
    + destruct (String.prefix sep (String c (x +:+ y))); [reflexivity|].
      now apply IH.
Qed.

Lemma before_is_prefix (sep s : string) :
  exists rest,
    s = PyStr.before sep s +:+ rest /\
    (rest = EmptyString \/ String.prefix sep rest = true).
Proof.
  destruct (PyStr.after sep s) as [post|] eqn:Ha.
  - exists (sep +:+ post). split; [now apply after_decompose|].
    right. apply prefix_append.
  - exists EmptyString. rewrite (before_whole _ _ Ha), append_nil_r. auto.
Qed.

(** What precedes the first separator has no separator. *)
Lemma before_no_sep (a : ascii) (sep' s : string) :
  PyStr.contains (String a sep') (PyStr.before (String a sep') s) = false.
Proof.
  induction s as [|c s IH].
  - cbn [PyStr.before]. now destruct (String.prefix _ EmptyString).
  - cbn [PyStr.before].
    destruct (String.prefix (String a sep') (String c s)) eqn:Hp;
      [reflexivity|].
    cbn [PyStr.contains].
    destruct (String.prefix (String a sep')
                (String c (PyStr.before (String a sep') s))) eqn:Hq;
      [|exact IH].
    destruct (before_is_prefix (String a sep') s) as (rest & Hs & _).
    apply (prefix_app_mono _ _ rest) in Hq.
    rewrite append_cons, <- Hs in Hq. congruence.
Qed.

Lemma contains_prefix_false (sep x y : string) :
  PyStr.contains sep (x +:+ y) = false -> PyStr.contains sep x = false.
Proof.
  intros H. destruct (PyStr.contains sep x) eqn:Hx; [|reflexivity].
  apply (contains_app_mono _ _ y) in Hx. congruence.
Qed.

End Details.

(** X1.  For every device the dictionary returned by
    [get_device_details] has the keys "Name", "Vendor ID" and "Status"
    and no other, so none of the three messages built from it can raise
    [KeyError]. *)
Theorem details_keys (device : device) :
  exists dd,
    get_device_details device = (details_log device, Ok dd) /\
    dom dd = ({["Name"; "Vendor ID"; "Status"]} : gset string) /\
    (exists m, found_message dd = Ok m) /\
    (exists m, connected_message dd = Ok m) /\
    (exists m, disconnected_message dd = Ok m).
Proof.
  destruct (get_device_details_spec device) as (dd & Hd & Hn & Hv & Hs).
  exists dd. split; [exact Hd|]. split.
  - unfold get_device_details in Hd. rewrite set_vendor_id_ok in Hd.
    unfold set_status, set_name in Hd.
    destruct (device !! "Status"), (device !! "Caption"),
      (device !! "Description"), (device !! "DeviceID") as [[device_id|]|];
      try destruct (PyStr.contains "VID_" device_id);
      cbn in Hd; injection Hd as _ <-;
      rewrite ?dom_insert_L, dom_empty_L; set_solver.
  - rewrite (found_message_ok _ _ _ _ Hn Hv Hs),
      (connected_message_ok _ _ _ _ Hn Hv Hs),
      (disconnected_message_ok _ _ _ Hn Hv).
    repeat split; eexists; reflexivity.
Qed.

(** X2.  When the identifier has a "VID_", the extracted vendor id
    stands in the identifier right after its first "VID_", holds neither
    "&" nor "VID_", and is followed there by "&", by "VID_" or by the end
    of the identifier. *)
Theorem vendor_id_shape (device_id : string) :
  PyStr.contains "VID_" device_id = true ->
  exists v rest,
    vendor_id_expr device_id = Ok v /\
    device_id = PyStr.before "VID_" device_id +:+ "VID_" +:+ v +:+ rest /\
    PyStr.contains "VID_" (PyStr.before "VID_" device_id) = false /\
    PyStr.contains "&" v = false /\
    PyStr.contains "VID_" v = false /\
    (rest = EmptyString \/ String.prefix "&" rest = true \/
     String.prefix "VID_" rest = true).
Proof.
  intros Hc. apply contains_after in Hc as [post Hpost].
  destruct (before_is_prefix "VID_" post) as (r1 & Hp1 & Hr1).
  destruct (before_is_prefix "&" (PyStr.before "VID_" post))
    as (r2 & Hp2 & Hr2).
  exists (PyStr.before "&" (PyStr.before "VID_" post)), (r2 +:+ r1).
  split; [now apply vendor_id_expr_after|]. split.
  { rewrite <- (append_assoc _ r2 r1), <- Hp2, <- Hp1.
    now apply after_decompose. }
  split; [apply before_no_sep|]. split; [apply before_no_sep|]. split.
  - apply (contains_prefix_false _ _ r2). rewrite <- Hp2.
    apply before_no_sep.
  - destruct Hr2 as [-> | Hr2].
    + rewrite append_nil_l. destruct Hr1; auto.
    + right. left. now apply prefix_app_mono.
Qed.

Lemma vendor_id_shape_witness :
  exists v rest,
    vendor_id_expr "USB-VID_12VID_34&PID_5" = Ok v /\
    PyStr.contains "&" v = false /\
    (rest = EmptyString \/ String.prefix "&" rest = true \/
     String.prefix "VID_" rest = true).
Proof.
  destruct (vendor_id_shape "USB-VID_12VID_34&PID_5")
    as (v & rest & Hv & _ & _ & Ha & _ & Hr).
  - vm_compute; reflexivity.
  - exists v, rest. split; [exact Hv | split; assumption].
Defined.

(** ** Pending calls *)

Section Pending.

Lemma perform_all_fields (ops : list op) (g : shared) :
  event_queue (perform_all ops g) = event_queue g ++ queued ops /\
  logger (perform_all ops g) = logger g ++ logged ops /\
  text_box (perform_all ops g) = text_box g /\
  running (perform_all ops g) = running g.
Proof.
  revert g. induction ops as [|o ops IH]; intros g.
  - cbn. now rewrite !app_nil_r.
  - cbn [perform_all fold_left]. fold (perform_all ops (fst (perform o g))).
    destruct (IH (fst (perform o g))) as (Hq & Hl & Ht & Hr).
    rewrite Hq, Hl, Ht, Hr.
    destruct o; cbn; rewrite ?app_nil_r, <- ?app_assoc; repeat split.
Qed.

Lemma perform_all_puts (ms : list string) (g : shared) :
  perform_all (map Put ms) g = set_event_queue (fun q => q ++ ms) g.
Proof.
  revert g. induction ms as [|m ms IH]; intros g.
  - destruct g. unfold set_event_queue. cbn. now rewrite app_nil_r.
  - cbn [map perform_all fold_left]. fold (perform_all (map Put ms)).
    cbn [perform fst]. rewrite IH. unfold set_event_queue. cbn.
    now rewrite <- app_assoc.
Qed.

Lemma queued_puts (ms : list string) : queued (map Put ms) = ms.
Proof.
  unfold queued. induction ms as [|m ms IH]; [reflexivity|].
  cbn [map flat_map]. now rewrite IH.
Qed.

(** The thread makes its pending calls one per step, in order. *)
Lemma run_pending (os : os_reply) (ops : list op) (c : wctl)
  (g : shared) (t : gui_thread) :
  run (replicate (length ops) (Monitor os))
      {| globals := g; monitor := {| pending := ops; ctl := c |}; gui := t |} =
    ({| globals := perform_all ops g;
        monitor := {| pending := []; ctl := c |}; gui := t |},
     map Ev_put (queued ops)).
Proof.
  revert g. induction ops as [|o ops IH]; intros g; [reflexivity|].
  cbn [length replicate]. rewrite run_cons, step_monitor.
  cbn [fst snd monitor globals gui monitor_devices pending ctl].
  destruct o as [m|l m]; cbn [perform fst snd]; rewrite IH; reflexivity.
Qed.

Lemma enumerate_ops (devices : list device) :
  enumerate devices = (enumeration_ops devices, Ok tt).
Proof. apply enumerate_ok. Qed.

Lemma enumeration_queued (devices : list device) :
  queued (enumeration_ops devices) =
    "=== Current USB Devices ===" :: map found_text devices.
Proof.
  unfold enumeration_ops, queued. cbn [flat_map app]. f_equal.
  induction devices as [|device l IH]; [reflexivity|].
  cbn [flat_map map]. rewrite flat_map_app, IH.
  unfold details_log. now destruct (null_id device).
Qed.

Lemma enumeration_logged (devices : list device) :
  logged (enumeration_ops devices) =
    flat_map (fun device =>
                if null_id device
                then [(ERROR, "Error getting device details: " +:+
                              "argument of type 'NoneType' is not iterable")]
                else []) devices.
Proof.
  unfold enumeration_ops, logged. cbn [flat_map app].
  induction devices as [|device l IH]; [reflexivity|].
  cbn [flat_map]. rewrite flat_map_app, IH.
  unfold details_log. now destruct (null_id device).
Qed.

End Pending.

(** X3.  Whatever the devices, the enumeration raises nothing: started
    with [n] current devices the thread puts [n + 1] messages on the
    queue, the header first and then the "Device Found" message of each
    device in the order of the enumeration, and then stands at the loop
    test.  It writes one error record for each device whose identifier
    is present but null, in the same order, and no other record. *)
Theorem enumeration_order (devices : list device)
  (event : result (option device)) (g : shared) (t : gui_thread) :
  run (replicate (S (length (enumeration_ops devices)))
         (Monitor (reply_of (Ok devices) event)))
      (at_ctl g t At_init) =
    (at_ctl (perform_all (enumeration_ops devices) g) t At_loop_head,
     map Ev_put ("=== Current USB Devices ===" :: map found_text devices)) /\
  event_queue (perform_all (enumeration_ops devices) g) =
    event_queue g ++ "=== Current USB Devices ===" :: map found_text devices /\
  logger (perform_all (enumeration_ops devices) g) =
    logger g ++
    flat_map (fun device =>
                if null_id device
                then [(ERROR, "Error getting device details: " +:+
                              "argument of type 'NoneType' is not iterable")]
                else []) devices /\
  text_box (perform_all (enumeration_ops devices) g) = text_box g /\
  running (perform_all (enumeration_ops devices) g) = running g.
Proof.
  destruct (perform_all_fields (enumeration_ops devices) g)
    as (Hq & Hl & Ht & Hr).
  rewrite enumeration_queued in Hq. rewrite enumeration_logged in Hl.
  split; [|repeat split; assumption].
  cbn [replicate]. rewrite run_cons, step_monitor.
  cbn [fst snd monitor globals gui monitor_devices pending ctl at_ctl
       reply_of hub_query].
  unfold startup, lift, pbind. rewrite enumerate_ops.
  cbn [app]. rewrite run_pending, enumeration_queued. reflexivity.
Qed.

(** X4.  A step of the monitor thread leaves the text box, the running
    flag and the GUI thread as they are, and only appends to the queue
    and to the log; a step of the GUI thread leaves the monitor thread as
    it is, puts nothing on the queue and only takes messages from its
    head. *)
Theorem thread_confinement (a : action) (s : system) :
  match a with
  | Monitor _ =>
      text_box (globals (fst (step a s))) = text_box (globals s) /\
      running (globals (fst (step a s))) = running (globals s) /\
      gui (fst (step a s)) = gui s /\
      event_queue (globals (fst (step a s))) =
        event_queue (globals s) ++ puts (snd (step a s)) /\
      exists records,
        logger (globals (fst (step a s))) = logger (globals s) ++ records
  | Gui _ =>
      monitor (fst (step a s)) = monitor s /\
      puts (snd (step a s)) = [] /\
      event_queue (globals s) =
        inserts (snd (step a s)) ++ event_queue (globals (fst (step a s)))
  end.
Proof.
  destruct a as [os|input].
  - rewrite step_monitor. cbn [fst snd globals gui].
    unfold monitor_devices.
    destruct (pending (monitor s)) as [|o rest].
    + destruct (ctl (monitor s)); try destruct (running (globals s)) eqn:Hr;
        cbn [fst snd puts flat_map app]; rewrite ?app_nil_r;
        repeat split; auto; exists []; now rewrite app_nil_r.
    + destruct o as [m|l m]; cbn; rewrite ?app_nil_r; repeat split;
        eauto. exists []. now rewrite app_nil_r.
  - pose proof (step_queue (Gui input) s) as [Hq _].
    rewrite step_gui in *. cbn [fst snd globals monitor] in *.
    destruct (gui_step_events input (gui s) (globals s)) as (Hp & _).
    rewrite Hp, app_nil_r in Hq. repeat split; assumption.
Qed.

(** X5.  In the polling loop a watcher call leads to at most one message
    on the queue.  It leads to one log record when it leads to a message,
    and to one more, an error record written first, when the watcher
    returned a device whose identifier is present but null. *)
Theorem poll_logs_what_it_queues (os : os_reply) (creation : bool)
  (g : shared) (t : gui_thread) :
  let c := if creation then At_creation_wait else At_deletion_wait in
  let w := fst (fst (monitor_devices os {| pending := []; ctl := c |} g)) in
  exists ms rs,
    run (replicate (S (length (pending w))) (Monitor os)) (at_ctl g t c) =
      ({| globals := perform_all (pending w) g;
          monitor := {| pending := []; ctl := ctl w |}; gui := t |},
       Ev_wait (waited_ms os) :: map Ev_put ms) /\
    event_queue (perform_all (pending w) g) = event_queue g ++ ms /\
    logger (perform_all (pending w) g) = logger g ++ rs /\
    length ms <= 1 /\
    length rs =
      length ms +
      match watcher_event os with
      | Ok (Some device) => if null_id device then 1 else 0
      | _ => 0
      end.
Proof.
  cbv zeta.
  set (w := fst (fst (monitor_devices os
                        {| pending := [];
                           ctl := if creation then At_creation_wait
                                  else At_deletion_wait |} g))).
  exists (queued (pending w)), (logged (pending w)).
  destruct (perform_all_fields (pending w) g) as (Hq & Hl & _ & _).
  split; [|split; [exact Hq | split; [exact Hl|]]].
  - cbn [replicate]. rewrite run_cons, step_monitor.
    cbn [fst snd monitor globals gui at_ctl].
    fold w.
    assert (snd (fst (monitor_devices os
                        {| pending := [];
                           ctl := if creation then At_creation_wait
                                  else At_deletion_wait |} g)) = g /\
            snd (monitor_devices os
                   {| pending := [];
                      ctl := if creation then At_creation_wait
                             else At_deletion_wait |} g) =
              [Ev_wait (waited_ms os)]) as [-> ->]
      by (destruct creation; split; reflexivity).
    destruct w as [ops c']. cbn [pending ctl].
    rewrite run_pending. reflexivity.
  - subst w. destruct creation; cbn [monitor_devices pending ctl fst];
      destruct (watcher_event os) as [[device|]|[msg|msg]];
      rewrite ?check_new_some, ?check_removed_some;
      unfold details_log; try destruct (null_id device);
      cbn; lia.
Qed.

(** ** Which watcher is polled *)

Section Watchers.

Lemma monitor_step_frame (os : os_reply) (s : system) :
  gui (fst (step (Monitor os) s)) = gui s /\
  text_box (globals (fst (step (Monitor os) s))) = text_box (globals s) /\
  inserts (snd (step (Monitor os) s)) = [] /\
  event_queue (globals (fst (step (Monitor os) s))) =
    event_queue (globals s) ++ puts (snd (step (Monitor os) s)).
Proof.
  rewrite step_monitor. cbn [fst snd globals gui]. unfold monitor_devices.
  destruct (pending (monitor s)) as [|o rest].
  - destruct (ctl (monitor s)); try destruct (running (globals s));
      cbn; rewrite ?app_nil_r; repeat split.
  - destruct o; cbn; rewrite ?app_nil_r; repeat split.
Qed.

(** The thread comes to the deletion watcher only from a creation wait
    that returned. *)
Lemma deletion_wait_entered (os : os_reply) (s : system) :
  ctl (monitor (fst (step (Monitor os) s))) = At_deletion_wait ->
  ctl (monitor s) = At_deletion_wait \/
  (monitor s = {| pending := []; ctl := At_creation_wait |} /\
   exists d, watcher_event os = Ok d).
Proof.
  rewrite step_monitor. cbn [fst monitor]. unfold monitor_devices.
  destruct (monitor s) as [ops c]. cbn [pending ctl].
  destruct ops as [|o rest].
  - destruct c.
    + unfold startup.
      destruct (pbind (lift (hub_query os)) _) as [ops [u|e]];
        cbn; discriminate.
    + destruct (running (globals s)); cbn; discriminate.
    + destruct (watcher_event os) as [d|[msg|msg]]; [eauto | |];
        cbn; discriminate.
    + auto.
    + cbn; discriminate.
    + cbn; discriminate.
  - destruct (perform o (globals s)). cbn [fst ctl]. auto.
Qed.

(** With watcher calls that all time out the thread goes round between
    the loop test and the creation watcher, or leaves the loop, and puts
    nothing on the queue. *)
Lemma timeouts_round (schedule : list action) (s : system) :
  all_timeouts schedule = true ->
  pending (monitor s) = [] ->
  ctl (monitor s) <> At_init -> ctl (monitor s) <> At_deletion_wait ->
  pending (monitor (fst (run schedule s))) = [] /\
  ctl (monitor (fst (run schedule s))) <> At_init /\
  ctl (monitor (fst (run schedule s))) <> At_deletion_wait /\
  puts (snd (run schedule s)) = [].
Proof.
  revert s. induction schedule as [|a rest IH]; intros s Ht Hp Hi Hd.
  - repeat split; assumption.
  - rewrite run_cons. cbn [fst snd]. rewrite puts_app.
    cbn [all_timeouts forallb] in Ht. apply andb_true_iff in Ht as [Ha Hrest].
    assert (pending (monitor (fst (step a s))) = [] /\
            ctl (monitor (fst (step a s))) <> At_init /\
            ctl (monitor (fst (step a s))) <> At_deletion_wait /\
            puts (snd (step a s)) = []) as (Hp1 & Hi1 & Hd1 & ->).
    { destruct a as [os|input].
      - rewrite step_monitor. cbn [fst snd monitor]. unfold monitor_devices.
        destruct (monitor s) as [ops c]. cbn [pending ctl] in *. subst ops.
        destruct (watcher_event os) as [d|[msg|msg]]; try discriminate.
        destruct c; try destruct (running (globals s)); try congruence;
          cbn; repeat split; discriminate.
      - rewrite step_gui. cbn [fst snd monitor].
        destruct (gui_step_events input (gui s) (globals s)) as (-> & _).
        repeat split; assumption. }
    apply (IH _ Hrest Hp1 Hi1 Hd1).
Qed.

End Watchers.

(** X6.  A time-out of the creation wait goes back to the loop test
    without the deletion wait of that iteration: the thread comes to the
    deletion watcher only from a creation wait that returned, so while
    the watcher calls time out the deletion watcher is never polled and
    nothing is put on the queue. *)
Theorem deletion_polled_only_after_creation (schedule : list action)
  (g : shared) (t : gui_thread) :
  all_timeouts schedule = true ->
  ctl (monitor (fst (run schedule (at_ctl g t At_loop_head)))) <>
    At_deletion_wait /\
  puts (snd (run schedule (at_ctl g t At_loop_head))) = [] /\
  forall os s,
    ctl (monitor (fst (step (Monitor os) s))) = At_deletion_wait ->
    ctl (monitor s) = At_deletion_wait \/
    (monitor s = {| pending := []; ctl := At_creation_wait |} /\
     exists d, watcher_event os = Ok d).
Proof.
  intros Ht.
  destruct (timeouts_round schedule (at_ctl g t At_loop_head) Ht)
    as (_ & _ & Hd & Hp); try reflexivity; try discriminate.
  split; [exact Hd|]. split; [exact Hp | exact deletion_wait_entered].
Qed.

Lemma deletion_polled_only_after_creation_witness :
  ctl (monitor (fst (run [Monitor quiet; Monitor quiet; Gui Timer_fires;
                          Monitor quiet; Monitor quiet; Monitor quiet]
                         (at_ctl (globals initial) (gui initial)
                                 At_loop_head)))) <> At_deletion_wait /\
  puts (snd (run [Monitor quiet; Monitor quiet; Gui Timer_fires;
                  Monitor quiet; Monitor quiet; Monitor quiet]
                 (at_ctl (globals initial) (gui initial) At_loop_head))) = [].
Proof.
  destruct (deletion_polled_only_after_creation
              [Monitor quiet; Monitor quiet; Gui Timer_fires;
               Monitor quiet; Monitor quiet; Monitor quiet]
              (globals initial) (gui initial)) as (Hd & Hp & _).
  - reflexivity.
  - split; assumption.
Defined.

(** ** The display tick *)

Section Tick.

Lemma step_get_ready (a : action) (s : system) :
  get_ready s = true -> get_ready (fst (step a s)) = true.
Proof.
  unfold get_ready. intros Hs. destruct a as [os|input].
  - destruct (monitor_step_frame os s) as (-> & _ & _ & ->).
    destruct (gctl_of (gui s)); try reflexivity.
    destruct (event_queue (globals s)); [discriminate | reflexivity].
  - rewrite step_gui. cbn [fst gui globals].
    unfold gui_step, update_gui_from_queue, cleanup.
    destruct (gctl_of (gui s)) eqn:Hc, input, (timer (gui s)),
      (event_queue (globals s)) as [|m [|m' q]] eqn:Hq;
      cbn; rewrite ?Hc, ?Hq; try reflexivity; discriminate.
Qed.

Lemma run_get_ready (schedule : list action) (s : system) :
  get_ready s = true -> get_ready (fst (run schedule s)) = true.
Proof.
  revert s. induction schedule as [|a rest IH]; intros s Hs; [exact Hs|].
  rewrite run_cons. cbn [fst]. apply IH. now apply step_get_ready.
Qed.

Lemma gui_step_log (input : gui_input) (s : system) :
  get_ready s = true ->
  logger (globals (fst (step (Gui input) s))) = logger (globals s) \/
  logger (globals (fst (step (Gui input) s))) =
    logger (globals s) ++ [(INFO, "Shutting down USB Monitor")].
Proof.
  unfold get_ready. intros Hs. rewrite step_gui. cbn [fst globals].
  unfold gui_step, update_gui_from_queue, cleanup.
  destruct (gctl_of (gui s)), input, (timer (gui s)),
    (event_queue (globals s)); cbn; auto; discriminate.
Qed.

(** From the loop test of the tick, with no step of the monitor thread
    in between: two steps per queued message and two to finish. *)
Lemma drain_loop (q : list string) (lg : list (level * string))
  (tb : string) (r b : bool) (w : worker) :
  run (replicate (2 + 2 * length q) (Gui Timer_fires))
      {| globals := {| logger := lg; text_box := tb;
                       event_queue := q; running := r |};
         monitor := w; gui := {| gctl_of := At_while; timer := b |} |} =
    ({| globals := {| logger := lg; text_box := inserted tb q;
                      event_queue := []; running := r |};
        monitor := w; gui := {| gctl_of := Idle; timer := r |} |},
     map Ev_insert q).
Proof.
  revert tb. induction q as [|m q IH]; intros tb; [reflexivity|].
  replace (2 + 2 * length (m :: q)) with (S (S (2 + 2 * length q)))
    by (cbn [length]; lia).
  cbn [replicate]. rewrite run_cons. cbn [step gui_step gui globals
    gctl_of update_gui_from_queue event_queue fst snd timer].
  rewrite run_cons. cbn [step gui_step gui globals monitor
    gctl_of update_gui_from_queue event_queue fst snd timer
    logger text_box running].
  unfold set_text_box, set_event_queue.
  cbn [logger text_box event_queue running].
  rewrite IH. reflexivity.
Qed.

Lemma closed_stays (schedule : list action) (s : system) :
  gctl_of (gui s) = Closed ->
  gui (fst (run schedule s)) = gui s /\
  text_box (globals (fst (run schedule s))) = text_box (globals s) /\
  inserts (snd (run schedule s)) = [] /\
  event_queue (globals (fst (run schedule s))) =
    event_queue (globals s) ++ puts (snd (run schedule s)).
Proof.
  revert s. induction schedule as [|a rest IH]; intros s Hc.
  - cbn. now rewrite app_nil_r.
  - rewrite run_cons. cbn [fst snd]. rewrite inserts_app, puts_app.
    assert (gui (fst (step a s)) = gui s /\
            text_box (globals (fst (step a s))) = text_box (globals s) /\
            inserts (snd (step a s)) = [] /\
            event_queue (globals (fst (step a s))) =
              event_queue (globals s) ++ puts (snd (step a s)))
      as (Hg & Ht & Hi & Hq).
    { destruct a as [os|input]; [apply monitor_step_frame|].
      rewrite step_gui. cbn [fst snd gui globals].
      unfold gui_step. rewrite Hc. cbn. rewrite app_nil_r.
      repeat split. }
    destruct (IH (fst (step a s))) as (Hg' & Ht' & Hi' & Hq');
      [now rewrite Hg|].
    rewrite Hg', Ht', Hi', Hq', Hg, Ht, Hi, Hq, app_assoc.
    repeat split.
Qed.

End Tick.

(** X7.  The display tick never calls [get_nowait] on an empty queue:
    from a state where it is not about to, no schedule of the two
    threads brings it there, so its [except] branch is never taken and
    the only record the GUI thread writes to the log is the one of
    [cleanup]. *)
Theorem get_nowait_never_empty (schedule : list action) (s : system)
  (input : gui_input) :
  get_ready s = true ->
  get_ready (fst (run schedule s)) = true /\
  (logger (globals (fst (step (Gui input) (fst (run schedule s))))) =
     logger (globals (fst (run schedule s))) \/
   logger (globals (fst (step (Gui input) (fst (run schedule s))))) =
     logger (globals (fst (run schedule s))) ++
     [(INFO, "Shutting down USB Monitor")]).
Proof.
  intros Hs. pose proof (run_get_ready schedule s Hs) as Hr.
  split; [exact Hr | now apply gui_step_log].
Qed.

Lemma get_nowait_never_empty_witness :
  get_ready (fst (run eight_steps initial)) = true.
Proof.
  destruct (get_nowait_never_empty eight_steps initial Timer_fires)
    as (Hr & _); [reflexivity | exact Hr].
Defined.

(** X8.  A tick that runs with no step of the monitor thread in between
    takes every message off the queue, appends each with a newline to
    the text box in queue order, and arms the timer again exactly when
    [running] is true; it takes three steps and two more per message. *)
Theorem tick_drains_queue (g : shared) (w : worker) :
  run (replicate (3 + 2 * length (event_queue g)) (Gui Timer_fires))
      {| globals := g; monitor := w;
         gui := {| gctl_of := Idle; timer := true |} |} =
    ({| globals := {| logger := logger g;
                      text_box := inserted (text_box g) (event_queue g);
                      event_queue := []; running := running g |};
        monitor := w; gui := {| gctl_of := Idle; timer := running g |} |},
     map Ev_insert (event_queue g)).
Proof.
  destruct g as [lg tb q r]. cbn [event_queue logger text_box running].
  change (3 + 2 * length q) with (S (2 + 2 * length q)).
  cbn [replicate]. rewrite run_cons.
  cbn [step gui_step gui globals gctl_of timer fst snd].
  rewrite drain_loop. reflexivity.
Qed.

(** X9.  A click on "Exit", or the window's close control, clears the
    running flag, logs "Shutting down USB Monitor" and closes the GUI
    thread with its timer disarmed.  From then on, whatever the
    schedule, the flag stays false, the text box does not change and
    nothing more is taken from the queue: what the monitor thread still
    puts stays on it. *)
Theorem exit_closes_display (g : shared) (w : worker) (armed : bool)
  (schedule : list action) :
  let s0 := {| globals := g; monitor := w;
               gui := {| gctl_of := Idle; timer := armed |} |} in
  let s1 := {| globals :=
                 set_logger
                   (fun l => l ++ [(INFO, "Shutting down USB Monitor")])
                   (set_running false g);
               monitor := w;
               gui := {| gctl_of := Closed; timer := false |} |} in
  run [Gui Click_exit; Gui Click_exit; Gui Click_exit] s0 = (s1, []) /\
  run [Gui Close_window; Gui Close_window; Gui Close_window] s0 = (s1, []) /\
  gui (fst (run schedule s1)) = gui s1 /\
  running (globals (fst (run schedule s1))) = false /\
  text_box (globals (fst (run schedule s1))) = text_box g /\
  inserts (snd (run schedule s1)) = [] /\
  event_queue (globals (fst (run schedule s1))) =
    event_queue g ++ puts (snd (run schedule s1)).
Proof.
  cbv zeta. split; [reflexivity|]. split; [reflexivity|].
  destruct (closed_stays schedule
              {| globals :=
                   set_logger
                     (fun l => l ++ [(INFO, "Shutting down USB Monitor")])
                     (set_running false g);
                 monitor := w;
                 gui := {| gctl_of := Closed; timer := false |} |} eq_refl)
    as (Hg & Ht & Hi & Hq).
  destruct (run_stopped schedule
              {| globals :=
                   set_logger
                     (fun l => l ++ [(INFO, "Shutting down USB Monitor")])
                     (set_running false g);
                 monitor := w;
                 gui := {| gctl_of := Closed; timer := false |} |} eq_refl)
    as (Hr & _).
  repeat split; assumption.
Qed.

(** ** The attributes read *)

(** X10.  [get_device_details] reads the attributes "Caption",
    "Description", "DeviceID" and "Status" and no other: setting any
    other attribute of the device, its "Name" for one, changes neither
    the dictionary nor what is logged. *)
Theorem details_ignore_other_attributes (device : device)
  (key : string) (v : value) :
  key <> "Caption" -> key <> "Description" ->
  key <> "DeviceID" -> key <> "Status" ->
  get_device_details (<[key := v]> device) = get_device_details device.
Proof.
  intros Hc Hd Hi Hs.
  unfold get_device_details, set_name, set_vendor_id, set_status.
  now rewrite !lookup_insert_ne by assumption.
Qed.

Lemma details_ignore_other_attributes_witness :
  get_device_details (<["Name" := Str "Hub"]> test_device) =
  get_device_details test_device.
Proof.
  apply (details_ignore_other_attributes test_device "Name" (Str "Hub"));
    discriminate.
Defined.
